(** * Gesture pipeline: classifier, smoother, validation window, command mapper

    A shallow embedding of [gesture_classifier.py], [command_mapper.py] and
    the per-hand body of the frame loop of [hand_gesture.py].

    Modelling conventions.
    - Python [float] values are modelled by exact rationals [Q]; binary64
      rounding is not modelled.  Every constant of the source ([0.05],
      [0.1], [0.3], [0.7], ...) is the rational with that decimal expansion.
    - Python [str] values are [string]; labels are compared with
      [String.eqb], as the source compares them with [==] and [!=].
    - Python exceptions are explicit: a computation that can raise has type
      [Py.result A]; one that also mutates an object has type [Py.M S A],
      where the state survives an exception.
    - Python lists are Rocq lists; [l[i]], [l[-k]], [l[-k:]], [l.pop(0)],
      [l.count(x)], [sum], [max], [min] and [len] are in module [Py]. *)

From Stdlib Require Import QArith Qminmax Qabs String List Bool Arith Lia Lqa.
Import ListNotations.

Set Implicit Arguments.

(* ================================================================== *)
(** * The fragment of the Python runtime the program uses             *)
(* ================================================================== *)

Module Py.

Inductive exn : Type :=
| IndexError
| ZeroDivisionError
| ValueError.

Inductive result (A : Type) : Type :=
| Ok (a : A)
| Raise (e : exn).

Arguments Ok {A} a.
Arguments Raise {A} e.

Definition ret {A} (a : A) : result A := Ok a.

Definition bind {A B} (m : result A) (k : A -> result B) : result B :=
  match m with
  | Ok a => k a
  | Raise e => Raise e
  end.

(** [[f(x) for x in l]] where [f] can raise: left to right, first
    exception wins. *)
Fixpoint mapM {A B} (f : A -> result B) (l : list A) : result (list B) :=
  match l with
  | [] => Ok []
  | a :: l' =>
      match f a with
      | Ok b => match mapM f l' with
                | Ok bs => Ok (b :: bs)
                | Raise e => Raise e
                end
      | Raise e => Raise e
      end
  end.

(** State with exceptions: a mutation made before [raise] is kept. *)
Definition M (S A : Type) : Type := S -> result A * S.

Definition retM {S A} (a : A) : M S A := fun s => (Ok a, s).

Definition bindM {S A B} (m : M S A) (k : A -> M S B) : M S B :=
  fun s => match m s with
           | (Ok a, s') => k a s'
           | (Raise e, s') => (Raise e, s')
           end.

Definition get {S} : M S S := fun s => (Ok s, s).
Definition put {S} (s : S) : M S unit := fun _ => (Ok tt, s).
Definition lift {S A} (r : result A) : M S A := fun s => (r, s).

(** ** Float comparisons and arithmetic *)

Definition lt (x y : Q) : bool :=
  match x ?= y with Lt => true | _ => false end.
Definition gt (x y : Q) : bool := lt y x.

(** [a / b] *)
Definition truediv (a b : Q) : result Q :=
  if Qeq_bool b 0 then Raise ZeroDivisionError else Ok (a / b).

(** [min(a, b)]: [b] when [b < a], else [a]. *)
Definition min2 (a b : Q) : Q := if lt b a then b else a.

(** [max(l)] and [min(l)] on a list: the first extremal item;
    [ValueError] on the empty list. *)
Definition max (l : list Q) : result Q :=
  match l with
  | [] => Raise ValueError
  | x :: l' => Ok (fold_left (fun m y => if gt y m then y else m) l' x)
  end.

Definition min (l : list Q) : result Q :=
  match l with
  | [] => Raise ValueError
  | x :: l' => Ok (fold_left (fun m y => if lt y m then y else m) l' x)
  end.

(** [sum(l)], starting from [0] and adding left to right. *)
Definition sum (l : list Q) : Q := fold_left Qplus l 0.

(** [len(l)] as a number. *)
Definition len {A} (l : list A) : Q := inject_Z (Z.of_nat (length l)).

(** ** Lists *)

(** [l[i]] for a non-negative [i]. *)
Definition getitem {A} (l : list A) (i : nat) : result A :=
  match nth_error l i with
  | Some a => Ok a
  | None => Raise IndexError
  end.

(** [l[-k]] for [k >= 1]. *)
Definition getitem_neg {A} (l : list A) (k : nat) : result A :=
  if (k <=? length l)%nat then getitem l (length l - k) else Raise IndexError.

(** [l[-k:]]: the last [k] items, the whole list when it is shorter. *)
Definition slice_last {A} (k : nat) (l : list A) : list A :=
  skipn (length l - k) l.

(** [l.pop(0)], as the list that remains. *)
Definition pop0 {A} (l : list A) : result (list A) :=
  match l with
  | [] => Raise IndexError
  | _ :: l' => Ok l'
  end.

(** [l.count(x)] on a list of strings. *)
Definition count (x : string) (l : list string) : nat :=
  length (filter (String.eqb x) l).

(** [max(l, key=key)]: the first item whose key is maximal. *)
Definition max_key {A} (key : A -> nat) (l : list A) : result A :=
  match l with
  | [] => Raise ValueError
  | x :: l' =>
      Ok (fold_left (fun m y => if (key m <? key y)%nat then y else m) l' x)
  end.

(** [set(l)], as the sequence of its items in iteration order.  CPython
    does not fix that order for strings; this model takes first
    occurrences, and [validation_order_irrelevant] below shows that the
    frame loop does not depend on the choice. *)
Definition set (l : list string) : list string := nodup string_dec l.

(** A dict with string keys, as the sequence of the items of its
    literal, and [d.get(k, default)]. *)
Definition dict (V : Type) : Type := list (string * V).

Definition dict_get {V} (d : dict V) (k : string) (default : V) : V :=
  match find (fun kv => String.eqb (fst kv) k) d with
  | Some kv => snd kv
  | None => default
  end.

Definition keys {V} (d : dict V) : list string := map fst d.

End Py.

Declare Scope py_scope.
Delimit Scope py_scope with py.
Notation "x <- m ;; k" := (Py.bind m (fun x => k))
  (at level 61, m at next level, right associativity) : py_scope.
Notation "' p <- m ;; k" := (Py.bind m (fun x => let p := x in k))
  (at level 61, p pattern, m at next level, right associativity) : py_scope.

Declare Scope pym_scope.
Delimit Scope pym_scope with pym.
Notation "x <- m ;; k" := (Py.bindM m (fun x => k))
  (at level 61, m at next level, right associativity) : pym_scope.
Notation "m1 ;; m2" := (Py.bindM m1 (fun _ => m2))
  (at level 61, right associativity) : pym_scope.

Open Scope string_scope.
Open Scope Q_scope.

(* ================================================================== *)
(** * gesture_classifier.py                                           *)
(* ================================================================== *)

(** A landmark, in either of the two shapes the classifier accepts: an
    object with attributes [x], [y], [z], or an indexable row of
    coordinates (a numpy row), read as [p[0]] and [p[1]]. *)
Inductive Landmark : Type :=
| LmObj (x y z : Q)
| LmRow (coords : list Q).

(** [p.x if hasattr(p, 'x') else p[0]] *)
Definition coord_x (p : Landmark) : Py.result Q :=
  match p with
  | LmObj x _ _ => Py.Ok x
  | LmRow c => Py.getitem c 0
  end.

(** [p.y if hasattr(p, 'y') else p[1]] *)
Definition coord_y (p : Landmark) : Py.result Q :=
  match p with
  | LmObj _ y _ => Py.Ok y
  | LmRow c => Py.getitem c 1
  end.

Module GestureClassifier.

Local Open Scope py_scope.

(** Landmark indices. *)
Definition WRIST : nat := 0.
Definition THUMB_TIP : nat := 4.
Definition INDEX_TIP : nat := 8.
Definition MIDDLE_TIP : nat := 12.
Definition RING_TIP : nat := 16.
Definition PINKY_TIP : nat := 20.

Definition INDEX_PIP : nat := 6.
Definition MIDDLE_PIP : nat := 10.
Definition RING_PIP : nat := 14.
Definition PINKY_PIP : nat := 18.

Definition INDEX_MCP : nat := 5.
Definition MIDDLE_MCP : nat := 9.
Definition RING_MCP : nat := 13.
Definition PINKY_MCP : nat := 17.

Definition THUMB_IP : nat := 3.
Definition THUMB_MCP : nat := 2.

(** The instance: [self.gesture_history] and [self.history_size]. *)
Record t : Type := mk {
  gesture_history : list (string * Q);
  history_size : nat
}.

(** [__init__] *)
Definition init : t := {| gesture_history := []; history_size := 5 |}.

(** [_is_extended(tip, pip, threshold)] *)
Definition _is_extended (tip pip : Landmark) (threshold : Q) : Py.result bool :=
  tip_y <- coord_y tip ;;
  pip_y <- coord_y pip ;;
  Py.ret (Py.lt tip_y (pip_y - threshold)).

(** The default of the keyword argument [threshold]. *)
Definition threshold_default : Q := 0.05.

(** [self._is_extended(lm[tip], lm[pip])] as [classify] calls it. *)
Definition extended_at (lm : list Landmark) (tip pip : nat) : Py.result bool :=
  a <- Py.getitem lm tip ;;
  b <- Py.getitem lm pip ;;
  _is_extended a b threshold_default.

(** [_finger_spread(lm)] *)
Definition _finger_spread (lm : list Landmark) : Py.result Q :=
  tips <- Py.mapM (fun idx => p <- Py.getitem lm idx ;; coord_x p)
                  [4; 8; 12; 16; 20]%nat ;;
  all_x <- Py.mapM coord_x lm ;;
  max_tips <- Py.max tips ;;
  min_tips <- Py.min tips ;;
  max_all <- Py.max all_x ;;
  min_all <- Py.min all_x ;;
  (* the source writes the guard 0.000001 as 1e-6 *)
  spread <- Py.truediv (max_tips - min_tips) (max_all - min_all + 0.000001) ;;
  Py.ret (Py.min2 spread 1.0).

(** [_get_point_direction(lm, handedness)] *)
Definition _get_point_direction (lm : list Landmark) (handedness : string)
  : Py.result string :=
  wrist <- Py.getitem lm WRIST ;;
  index_tip <- Py.getitem lm INDEX_TIP ;;
  wrist_x <- coord_x wrist ;;
  wrist_y <- coord_y wrist ;;
  tip_x <- coord_x index_tip ;;
  tip_y <- coord_y index_tip ;;
  let dx := tip_x - wrist_x in
  let dy := tip_y - wrist_y in
  let abs_dx := Qabs dx in
  let abs_dy := Qabs dy in
  if Py.gt abs_dx abs_dy then
    if Py.lt dx (-0.1) then Py.ret "left_point"
    else if Py.gt dx 0.1 then Py.ret "right_point"
    else Py.ret "unknown"
  else
    if Py.lt dy (-0.1) then Py.ret "up_point"
    else if Py.gt dy 0.1 then Py.ret "down_point"
    else Py.ret "unknown".

(** [_get_thumb_direction(lm, handedness)] *)
Definition _get_thumb_direction (lm : list Landmark) (handedness : string)
  : Py.result string :=
  wrist <- Py.getitem lm WRIST ;;
  thumb_tip <- Py.getitem lm THUMB_TIP ;;
  wrist_x <- coord_x wrist ;;
  wrist_y <- coord_y wrist ;;
  tip_x <- coord_x thumb_tip ;;
  tip_y <- coord_y thumb_tip ;;
  let dx := tip_x - wrist_x in
  let dy := tip_y - wrist_y in
  let abs_dx := Qabs dx in
  let abs_dy := Qabs dy in
  if Py.gt abs_dx abs_dy then
    if Py.lt dx (-0.1) then Py.ret "thumbs_left"
    else if Py.gt dx 0.1 then Py.ret "thumbs_right"
    else Py.ret "unknown"
  else
    if Py.lt dy (-0.1) then Py.ret "thumbs_up"
    else if Py.gt dy 0.1 then Py.ret "thumbs_down"
    else Py.ret "unknown".

(** The rules of [classify] after the open-palm rule: victory, rock,
    index point, no match.  Both ways out of the open-palm rule (not all
    five extended; all five extended but not spread) continue here. *)
Definition classify_from_victory
    (lm : list Landmark) (handedness : string)
    (index_extended middle_extended ring_extended pinky_extended : bool)
  : Py.result (string * Q) :=
  if index_extended && middle_extended
     && negb ring_extended && negb pinky_extended then
    Py.ret ("victory", 0.88)
  else if index_extended && pinky_extended
          && negb middle_extended && negb ring_extended then
    Py.ret ("rock", 0.88)
  else if index_extended && negb middle_extended
          && negb ring_extended && negb pinky_extended then
    direction <- _get_point_direction lm handedness ;;
    Py.ret (direction, 0.80)
  else
    Py.ret ("unknown", 0.0).

(** [classify(landmarks, handedness)] *)
Definition classify (landmarks : list Landmark) (handedness : string)
  : Py.result (string * Q) :=
  if negb (length landmarks =? 21)%nat then Py.ret ("unknown", 0.0)
  else
    let lm := landmarks in
    thumb_extended <- extended_at lm THUMB_TIP THUMB_IP ;;
    index_extended <- extended_at lm INDEX_TIP INDEX_PIP ;;
    middle_extended <- extended_at lm MIDDLE_TIP MIDDLE_PIP ;;
    ring_extended <- extended_at lm RING_TIP RING_PIP ;;
    pinky_extended <- extended_at lm PINKY_TIP PINKY_PIP ;;
    if thumb_extended && negb index_extended && negb middle_extended
       && negb ring_extended && negb pinky_extended then
      thumb_direction <- _get_thumb_direction lm handedness ;;
      Py.ret (thumb_direction, 0.85)
    else if negb (existsb id [thumb_extended; index_extended; middle_extended;
                              ring_extended; pinky_extended]) then
      Py.ret ("closed_palm", 0.90)
    else if forallb id [thumb_extended; index_extended; middle_extended;
                        ring_extended; pinky_extended] then
      spread <- _finger_spread lm ;;
      if Py.gt spread 0.3 then
        let confidence := Py.min2 0.95 (0.7 + spread * 0.25) in
        Py.ret ("open_palm", confidence)
      else
        classify_from_victory lm handedness
          index_extended middle_extended ring_extended pinky_extended
    else
      classify_from_victory lm handedness
        index_extended middle_extended ring_extended pinky_extended.

(** [self.gesture_history.append(e)] *)
Definition history_append (e : string * Q) : Py.M t unit :=
  fun self =>
    (Py.Ok tt, {| gesture_history := (gesture_history self ++ [e])%list;
                  history_size := history_size self |}).

(** [self.gesture_history.pop(0)] *)
Definition history_pop0 : Py.M t unit :=
  fun self =>
    match Py.pop0 (gesture_history self) with
    | Py.Ok h => (Py.Ok tt, {| gesture_history := h;
                               history_size := history_size self |})
    | Py.Raise e => (Py.Raise e, self)
    end.

(** The default of the keyword argument [history_weight]. *)
Definition history_weight_default : Q := 0.7.

(** [smooth_gesture(gesture, confidence, history_weight)] *)
Definition smooth_gesture (gesture : string) (confidence history_weight : Q)
  : Py.M t (string * Q) :=
  (history_append (gesture, confidence) ;;
   self <- Py.get ;;
   (if (history_size self <? length (gesture_history self))%nat
    then history_pop0 else Py.retM tt) ;;
   self <- Py.get ;;
   let h := gesture_history self in
   (* lines 107-113, reached when the block of lines 99-105 does not return *)
   let after_block :=
     if negb (gesture =? "unknown") then
       Py.retM (gesture, confidence)
     else if (1 <? length h)%nat then
       last <- Py.lift (Py.getitem_neg h 2) ;;
       let '(last_gesture, last_conf) := last in
       Py.retM (last_gesture, last_conf * 0.5)
     else
       Py.retM ("unknown", 0.0) in
   if (0 <? length h)%nat then
     let recent_gestures := map fst (Py.slice_last 3 h) in
     let recent_confidences := map snd (Py.slice_last 3 h) in
     if (2 <=? Py.count gesture recent_gestures)%nat then
       smoothed_conf <- Py.lift (Py.truediv (Py.sum recent_confidences)
                                            (Py.len recent_confidences)) ;;
       Py.retM (gesture, smoothed_conf)
     else after_block
   else after_block)%pym.

End GestureClassifier.

(* ================================================================== *)
(** * command_mapper.py                                               *)
(* ================================================================== *)

Module command_mapper.

Local Open Scope Z_scope.

Definition color : Type := (Z * Z * Z)%type.
Definition command : Type := (string * color)%type.

Definition GESTURE_TO_COMMAND : Py.dict command :=
  [ ("left_point", ("LEFT MOVE", (0, 255, 0)));
    ("right_point", ("RIGHT MOVE", (0, 255, 0)));
    ("up_point", ("UPWARD MOVE", (0, 255, 0)));
    ("down_point", ("DOWNWARD MOVE", (0, 255, 0)));
    ("thumbs_up", ("MOVE UP 👍", (255, 100, 100)));
    ("thumbs_down", ("MOVE DOWN 👎", (255, 100, 100)));
    ("thumbs_left", ("MOVE LEFT 👈", (100, 255, 100)));
    ("thumbs_right", ("MOVE RIGHT 👉", (100, 255, 100)));
    ("victory", ("VICTORY CELEBRATION! 🎉", (0, 200, 255)));
    ("rock", ("BACKFLIP!", (255, 0, 255)));
    ("open_palm", ("STOP IMMEDIATELY", (0, 0, 255)));
    ("closed_palm", ("LAND", (255, 0, 0))) ].

Definition SHAPE_TO_COMMAND : Py.dict command :=
  [ ("circle", ("CIRCLE MOVEMENT", (100, 100, 255)));
    ("square", ("SQUARE PATTERN", (100, 255, 100)));
    ("triangle", ("TRIANGLE PATTERN", (255, 100, 100)));
    ("line", ("LINE MOVEMENT", (200, 200, 0))) ].

(** The fallback both getters pass to [dict.get]. *)
Definition neutral : command := ("", (128, 128, 128)).

Definition get_gesture_command (gesture : string) : command :=
  Py.dict_get GESTURE_TO_COMMAND gesture neutral.

Definition get_shape_command (shape : string) : command :=
  Py.dict_get SHAPE_TO_COMMAND shape neutral.

Definition is_critical_command (gesture : string) : bool :=
  existsb (String.eqb gesture) ["open_palm"; "closed_palm"].

End command_mapper.

(* ================================================================== *)
(** * hand_gesture.py: the per-hand body of the frame loop            *)
(* ================================================================== *)

Module hand_gesture.

Definition confidence_threshold : Q := 0.7.
Definition min_frames_required : nat := 10.
Definition max_frames : nat := 12.

(** The validation buffer [gesture_frame_history]. *)
Definition frame_history : Type := list (string * Q).

(** Lines 109-115: track the smoothed result in the frame history and
    keep only the last 12 frames. *)
Definition track (gesture : string) (smoothed_confidence : Q)
  : Py.M frame_history unit :=
  ((if negb (gesture =? "unknown") then
      h <- Py.get ;; Py.put (h ++ [(gesture, smoothed_confidence)])%list
    else Py.retM tt) ;;
   h <- Py.get ;;
   if (max_frames <? length h)%nat then
     h' <- Py.lift (Py.pop0 h) ;; Py.put h'
   else Py.retM tt)%pym.

(** Lines 117-131: the value of [validated_gesture] ([None] is Python's
    [None]).  [set_iter] is the iteration order of [set(gesture_names)]. *)
Definition check_validated (set_iter : list string -> list string)
  : Py.M frame_history (option string) :=
  (h <- Py.get ;;
   if (min_frames_required <=? length h)%nat then
     let gesture_names := map fst h in
     let gesture_confidences := map snd h in
     most_common <- Py.lift (Py.max_key (fun g => Py.count g gesture_names)
                                        (set_iter gesture_names)) ;;
     let count := Py.count most_common gesture_names in
     avg_confidence <- Py.lift (Py.truediv (Py.sum gesture_confidences)
                                           (Py.len gesture_confidences)) ;;
     if (min_frames_required <=? count)%nat
        && Py.gt avg_confidence confidence_threshold then
       Py.put [] ;;
       Py.retM (Some most_common)
     else Py.retM None
   else Py.retM None)%pym.

(** Lines 109-131, from the smoothed result to [validated_gesture]. *)
Definition validate_with (set_iter : list string -> list string)
    (gesture : string) (smoothed_confidence : Q)
  : Py.M frame_history (option string) :=
  (track gesture smoothed_confidence ;; check_validated set_iter)%pym.

Definition validate : string -> Q -> Py.M frame_history (option string) :=
  validate_with Py.set.

(** The validation window driven by a stream of smoothed results: what
    each frame emits, and the buffer when the stream ends.  An exception
    ends the loop. *)
Fixpoint run_window (stream : list (string * Q)) (h : frame_history)
  : list (Py.result (option string)) * frame_history :=
  match stream with
  | [] => ([], h)
  | (gesture, smoothed_confidence) :: stream' =>
      match validate gesture smoothed_confidence h with
      | (Py.Ok v, h') =>
          let (out, h_end) := run_window stream' h' in (Py.Ok v :: out, h_end)
      | (Py.Raise e, h') => ([Py.Raise e], h')
      end
  end.

(** The loop variables the body of lines 106-131 reads and writes. *)
Record loop_state : Type := mk_loop {
  gesture_classifier : GestureClassifier.t;
  gesture_frame_history : frame_history
}.

(** Lines 106-131 for one detected hand. *)
Definition process_hand (lm_array : list Landmark) (handedness : string)
  : Py.M loop_state (option string) :=
  fun st =>
    match GestureClassifier.classify lm_array handedness with
    | Py.Raise e => (Py.Raise e, st)
    | Py.Ok (raw_gesture, raw_confidence) =>
        match GestureClassifier.smooth_gesture raw_gesture raw_confidence
                GestureClassifier.history_weight_default
                (gesture_classifier st) with
        | (Py.Raise e, gc) =>
            (Py.Raise e, {| gesture_classifier := gc;
                            gesture_frame_history := gesture_frame_history st |})
        | (Py.Ok (gesture, smoothed_confidence), gc) =>
            let (v, h) := validate gesture smoothed_confidence
                            (gesture_frame_history st) in
            (v, {| gesture_classifier := gc; gesture_frame_history := h |})
        end
    end.

End hand_gesture.

(* ================================================================== *)
(** * test_gestures.py: the mock hand                                 *)
(* ================================================================== *)

Module test_gestures.

(** A row [[x, y, z]] of the [(21, 3)] array. *)
Definition row (x y z : Q) : Landmark := LmRow [x; y; z].

(** [landmarks[i, 0] = x] *)
Definition set_x (x : Q) (p : Landmark) : Landmark :=
  match p with
  | LmRow (_ :: c) => LmRow (x :: c)
  | _ => p
  end.

Fixpoint update {A} (l : list A) (i : nat) (f : A -> A) : list A :=
  match l, i with
  | [], _ => []
  | a :: l', O => f a :: l'
  | a :: l', S i' => a :: update l' i' f
  end.

(** MCP, PIP, DIP, TIP of one of the four fingers. *)
Definition finger (extended : bool) : list Landmark :=
  if extended then
    [row 0.5 0.48 0.0; row 0.5 0.35 0.0; row 0.5 0.25 0.0; row 0.5 0.15 0.0]
  else
    [row 0.5 0.48 0.0; row 0.5 0.50 0.0; row 0.5 0.52 0.0; row 0.5 0.55 0.0].

(** [create_mock_landmarks(finger_states, spread, direction)], for a
    [finger_states] of five booleans. *)
Definition create_mock_landmarks
    (finger_states : list bool) (spread : bool) (direction : option (Q * Q))
  : list Landmark :=
  let st i := nth i finger_states false in
  let landmarks :=
    ([ row 0.5 0.5 0.0;
       row 0.45 0.5 0.0;
       row 0.47 0.48 0.0;
       row 0.48 0.45 0.0;
       row 0.5 (if st 0%nat then 0.3 else 0.55) 0.0 ]
     ++ finger (st 1%nat) ++ finger (st 2%nat)
     ++ finger (st 3%nat) ++ finger (st 4%nat))%list in
  let landmarks :=
    if spread then
      fold_left (fun lms xi => update lms (snd xi) (set_x (fst xi)))
                (combine [0.3; 0.4; 0.5; 0.6; 0.7] [4; 8; 12; 16; 20]%nat)
                landmarks
    else landmarks in
  match direction with
  | Some (dx, dy) => update landmarks 8 (set_x (0.5 + dx * 0.2))
  | None => landmarks
  end.

End test_gestures.

(* ================================================================== *)
(** * Vocabulary of the statements                                    *)
(* ================================================================== *)

(** The five extension flags [classify] computes first (lines 52-56), in
    the order thumb, index, middle, ring, pinky. *)
Definition finger_states (lm : list Landmark)
  : Py.result (bool * bool * bool * bool * bool) :=
  (thumb <- GestureClassifier.extended_at lm
              GestureClassifier.THUMB_TIP GestureClassifier.THUMB_IP ;;
   index <- GestureClassifier.extended_at lm
              GestureClassifier.INDEX_TIP GestureClassifier.INDEX_PIP ;;
   middle <- GestureClassifier.extended_at lm
               GestureClassifier.MIDDLE_TIP GestureClassifier.MIDDLE_PIP ;;
   ring <- GestureClassifier.extended_at lm
             GestureClassifier.RING_TIP GestureClassifier.RING_PIP ;;
   pinky <- GestureClassifier.extended_at lm
              GestureClassifier.PINKY_TIP GestureClassifier.PINKY_PIP ;;
   Py.ret (thumb, index, middle, ring, pinky))%py.

(** The displacement [(dx, dy)] of landmark [tip] from the wrist, as both
    direction functions compute it. *)
Definition displacement (lm : list Landmark) (tip : nat) : Py.result (Q * Q) :=
  (wrist <- Py.getitem lm GestureClassifier.WRIST ;;
   tip_pt <- Py.getitem lm tip ;;
   wrist_x <- coord_x wrist ;;
   wrist_y <- coord_y wrist ;;
   tip_x <- coord_x tip_pt ;;
   tip_y <- coord_y tip_pt ;;
   Py.ret (tip_x - wrist_x, tip_y - wrist_y))%py.

(** The magnitude of the displacement along its dominant axis: [|dx|] when
    [|dx| > |dy|], else [|dy|]. *)
Definition dominant_magnitude (d : Q * Q) : Q :=
  let (dx, dy) := d in
  if Py.gt (Qabs dx) (Qabs dy) then Qabs dx else Qabs dy.


(** A landmark both of whose coordinates can be read: an object, or a row
    of at least two numbers. *)
Definition readable (p : Landmark) : Prop :=
  (exists x, coord_x p = Py.Ok x) /\ (exists y, coord_y p = Py.Ok y).

(** The gesture labels: the labels [classify] can return. *)
Definition GESTURE_LABELS : list string :=
  [ "left_point"; "right_point"; "up_point"; "down_point";
    "thumbs_up"; "thumbs_down"; "thumbs_left"; "thumbs_right";
    "victory"; "rock"; "open_palm"; "closed_palm"; "unknown" ].

(** Modelled from the spec: the labels of the shape recognizer, whose
    module [air_drawing] is not among the sources.  They are the keys of
    [SHAPE_TO_COMMAND]. *)
Definition SHAPE_LABELS : list string :=
  [ "circle"; "square"; "triangle"; "line" ].

(** [m] is a most frequent label of [names]. *)
Definition is_modal (m : string) (names : list string) : Prop :=
  In m names /\ forall g, (Py.count g names <= Py.count m names)%nat.

(** The frame history after lines 109-115. *)
Definition tracked (h : hand_gesture.frame_history) (gesture : string) (c : Q)
  : hand_gesture.frame_history :=
  snd (hand_gesture.track gesture c h).

(** ** The smoother as the specification words it *)

Module SmootherSpec.

Definition capacity : nat := 5.

(** Append, then evict the oldest entry beyond the capacity. *)
Definition append_evict (history : list (string * Q)) (e : string * Q)
  : list (string * Q) :=
  let h := (history ++ [e])%list in
  if (capacity <? length h)%nat then tl h else h.

(** The last [n] entries. *)
Definition last_entries (n : nat) (h : list (string * Q)) : list (string * Q) :=
  rev (firstn n (rev h)).

Definition occurrences (g : string) (entries : list (string * Q)) : nat :=
  count_occ string_dec (map fst entries) g.

Definition mean (cs : list Q) : Q :=
  fold_right Qplus 0 cs / inject_Z (Z.of_nat (length cs)).

(** The new history and the returned pair. *)
Definition smooth (history : list (string * Q)) (gesture : string) (confidence : Q)
  : list (string * Q) * (string * Q) :=
  let h := append_evict history (gesture, confidence) in
  let last3 := last_entries 3 h in
  (h,
   if (2 <=? occurrences gesture last3)%nat then
     (gesture, mean (map snd last3))
   else if negb (gesture =? "unknown") then
     (gesture, confidence)
   else if (2 <=? length h)%nat then
     match nth_error (rev h) 1 with
     | Some (g2, c2) => (g2, c2 / 2)
     | None => ("unknown", 0)
     end
   else ("unknown", 0)).

End SmootherSpec.

(** ** Concrete observations *)

(** A hand far from the camera, every landmark within [0.1] of the wrist:
    a fist, with the thumb raised when [thumb] and the index finger raised
    when [index]. *)
Definition far_hand (thumb index : bool) : list Landmark :=
  let row := test_gestures.row in
  [ row 0.5 0.5 0.0;
    row 0.49 0.49 0.0; row 0.48 0.48 0.0; row 0.48 0.47 0.0;
    row 0.48 (if thumb then 0.41 else 0.48) 0.0;
    row 0.5 0.47 0.0; row 0.5 0.47 0.0;
    row 0.5 (if index then 0.44 else 0.48) 0.0;
    row 0.5 (if index then 0.41 else 0.48) 0.0;
    row 0.51 0.47 0.0; row 0.51 0.47 0.0; row 0.51 0.48 0.0; row 0.51 0.48 0.0;
    row 0.52 0.47 0.0; row 0.52 0.47 0.0; row 0.52 0.48 0.0; row 0.52 0.48 0.0;
    row 0.53 0.47 0.0; row 0.53 0.47 0.0; row 0.53 0.48 0.0; row 0.53 0.48 0.0 ].

(** The mock hands of the test file. *)
Definition mock_closed : list Landmark :=
  test_gestures.create_mock_landmarks [false; false; false; false; false] false None.

Definition mock_open_spread : list Landmark :=
  test_gestures.create_mock_landmarks [true; true; true; true; true] true None.

Definition mock_open_narrow : list Landmark :=
  test_gestures.create_mock_landmarks [true; true; true; true; true] false None.

(** Twelve smoothed results, six of one label and six of another, all of
    high confidence. *)
Definition split_stream : list (string * Q) :=
  (repeat ("victory", 0.99) 6 ++ repeat ("rock", 0.99) 6)%list.

(** An observation that is too short and whose only landmark has no
    coordinate to read. *)
Definition unreadable_short : list Landmark := [LmRow []].

(* ================================================================== *)
(** * More of the program                                             *)
(* ================================================================== *)

(** ** hand_gesture.py: the command panel and the loop over frames *)

Module hand_gesture_panel.

(** The labels line 158 lets through to the panel. *)
Definition PANEL_GESTURES : list string :=
  [ "left_point"; "right_point"; "up_point"; "down_point";
    "victory"; "rock"; "open_palm"; "closed_palm" ].

(** Lines 158-159: [(cmd_text, cmd_color)] of the panel. *)
Definition panel_command (last_gesture : string) : command_mapper.command :=
  if existsb (String.eqb last_gesture) PANEL_GESTURES
  then command_mapper.get_gesture_command last_gesture
  else ("", (128, 128, 128))%Z.

(** Lines 157-165: the text drawn in the panel, if any; [recent] is the
    test [current_time - last_command_time < gesture_display_duration]. *)
Definition panel_text (recent : bool) (last_gesture : string) : option string :=
  if recent then
    let cmd_text := fst (panel_command last_gesture) in
    if (cmd_text =? "") then None else Some ("COMMAND: " ++ cmd_text)
  else None.

(** The body of lines 106-131 over the hands of successive frames, from a
    loop state: what each hand's frame validates, and the state at the
    end.  An exception ends the loop. *)
Fixpoint run_hands (frames : list (list Landmark * string))
    (st : hand_gesture.loop_state)
  : list (Py.result (option string)) * hand_gesture.loop_state :=
  match frames with
  | [] => ([], st)
  | (lm_array, handedness) :: frames' =>
      match hand_gesture.process_hand lm_array handedness st with
      | (Py.Ok v, st') =>
          let (out, st_end) := run_hands frames' st' in (Py.Ok v :: out, st_end)
      | (Py.Raise e, st') => ([Py.Raise e], st')
      end
  end.

(** The loop state before the first frame (lines 53 and 62). *)
Definition initial_state : hand_gesture.loop_state :=
  {| hand_gesture.gesture_classifier := GestureClassifier.init;
     hand_gesture.gesture_frame_history := [] |}.

End hand_gesture_panel.

(** ** gesture_classifier.py: the smoother over a stream *)

(** Successive calls of [smooth_gesture] with the default weight: what
    each call returns, and the classifier at the end.  An exception ends
    the run. *)
Fixpoint smooth_run (inputs : list (string * Q)) (self : GestureClassifier.t)
  : list (Py.result (string * Q)) * GestureClassifier.t :=
  match inputs with
  | [] => ([], self)
  | (gesture, confidence) :: inputs' =>
      match GestureClassifier.smooth_gesture gesture confidence
              GestureClassifier.history_weight_default self with
      | (Py.Ok r, self') =>
          let (out, self_end) := smooth_run inputs' self' in (Py.Ok r :: out, self_end)
      | (Py.Raise e, self') => ([Py.Raise e], self')
      end
  end.

(** ** test_gestures.py: the square trail *)

Module test_trails.

Local Open Scope py_scope.

(** One [for i in range(side_len)] loop: [t = i / side_len], then the
    point [f t] is appended. *)
Definition side (side_len : nat) (f : Q -> Q * Q) : Py.result (list (Q * Q)) :=
  Py.mapM (fun i : nat =>
             t <- Py.truediv (inject_Z (Z.of_nat i)) (inject_Z (Z.of_nat side_len)) ;;
             Py.ret (f t))
          (seq 0 side_len).

(** [generate_square_trail(num_points)], for a non-negative
    [num_points]. *)
Definition generate_square_trail (num_points : nat) : Py.result (list (Q * Q)) :=
  let side_len := (num_points / 4)%nat in
  top <- side side_len (fun t => (0.3 + 0.2 * t, 0.3)) ;;
  right <- side side_len (fun t => (0.5, 0.3 + 0.2 * t)) ;;
  bottom <- side side_len (fun t => (0.5 - 0.2 * t, 0.5)) ;;
  left <- side side_len (fun t => (0.3, 0.5 - 0.2 * t)) ;;
  Py.ret (top ++ right ++ bottom ++ left)%list.

End test_trails.

(** ** Vocabulary of the further statements *)


(** A confidence between 0 and 1. *)
Definition unit_interval (c : Q) : Prop := 0 <= c <= 1.

(** A point on the border of the square of the trail. *)
Definition on_square (p : Q * Q) : Prop :=
  let (x, y) := p in
  0.3 <= x <= 0.5 /\ 0.3 <= y <= 0.5
  /\ (x == 0.3 \/ x == 0.5 \/ y == 0.3 \/ y == 0.5).

(** The labels the loop state holds are gesture labels, and the frame
    history holds no ["unknown"]. *)
Definition labels_ok (st : hand_gesture.loop_state) : Prop :=
  (forall x, In x (map fst (GestureClassifier.gesture_history
                              (hand_gesture.gesture_classifier st))) ->
             In x GESTURE_LABELS)
  /\ (forall x, In x (map fst (hand_gesture.gesture_frame_history st)) ->
                In x GESTURE_LABELS)
  /\ ~ In "unknown" (map fst (hand_gesture.gesture_frame_history st)).

(** The loop state after [k] frames of a hand held in a pose that
    [classify] reads as [(g, c)], when none of them validated: the
    smoothing history holds the last five of the [k] results, the frame
    history holds [k] entries labelled [g], each with a confidence above
    the threshold. *)
Definition still_state (g : string) (c : Q) (k : nat)
    (st : hand_gesture.loop_state) : Prop :=
  hand_gesture.gesture_classifier st
  = GestureClassifier.mk (repeat (g, c) (Nat.min 5 k)) 5
  /\ map fst (hand_gesture.gesture_frame_history st) = repeat g k
  /\ Forall (fun e => 0.7 < snd e) (hand_gesture.gesture_frame_history st).

(** The mock fist with the row of landmark [i] cut down to its x
    coordinate. *)
Definition mock_with_short_row (i : nat) : list Landmark :=
  test_gestures.update mock_closed i (fun _ => LmRow [0.5]).

(** The frames of a hand held still in the pose [lm]. *)
Definition still_frames (lm : list Landmark) (n : nat)
  : list (list Landmark * string) :=
  repeat (lm, "Right") n.

(* ================================================================== *)
(** * Facts about the runtime fragment                                *)
(* ================================================================== *)

Lemma lt_true_iff (x y : Q) : Py.lt x y = true <-> x < y.
Proof.
  unfold Py.lt. rewrite Qlt_alt.
  destruct (x ?= y); split; intro H; congruence.
Qed.

Lemma lt_false_iff (x y : Q) : Py.lt x y = false <-> y <= x.
Proof.
  rewrite <- not_true_iff_false, lt_true_iff. split; intro H.
  - now apply Qnot_lt_le.
  - now apply Qle_not_lt.
Qed.

Lemma gt_true_iff (x y : Q) : Py.gt x y = true <-> y < x.
Proof. apply lt_true_iff. Qed.

Lemma gt_false_iff (x y : Q) : Py.gt x y = false <-> x <= y.
Proof. apply lt_false_iff. Qed.



Lemma getitem_in_range {A} (l : list A) (i : nat) :
  (i < length l)%nat -> exists a, Py.getitem l i = Py.Ok a.
Proof.
  intro H. unfold Py.getitem.
  destruct (nth_error l i) as [a|] eqn:E; [now exists a|].
  apply nth_error_None in E. lia.
Qed.

(* ================================================================== *)
(** * The single-frame classifier                                     *)
(* ================================================================== *)

Section Classify.

Import GestureClassifier.

Variable lm : list Landmark.
Variable handedness : string.

(** With 21 landmarks and readable finger joints, [classify] is its rule
    cascade on the five flags. *)
Lemma classify_cascade (thumb index middle ring pinky : bool) :
  length lm = 21%nat ->
  finger_states lm = Py.Ok (thumb, index, middle, ring, pinky) ->
  classify lm handedness
  = if thumb && negb index && negb middle && negb ring && negb pinky then
      Py.bind (_get_thumb_direction lm handedness)
              (fun d => Py.ret (d, 0.85))
    else if negb (thumb || index || middle || ring || pinky) then
      Py.ret ("closed_palm", 0.90)
    else if thumb && index && middle && ring && pinky then
      Py.bind (_finger_spread lm)
        (fun spread =>
           if Py.gt spread 0.3
           then Py.ret ("open_palm", Py.min2 0.95 (0.7 + spread * 0.25))
           else classify_from_victory lm handedness index middle ring pinky)
    else classify_from_victory lm handedness index middle ring pinky.
Proof.
  intros Hlen Hfs. unfold classify. rewrite Hlen. cbn [Nat.eqb negb].
  unfold finger_states in Hfs.
  destruct (extended_at lm THUMB_TIP THUMB_IP) as [b1|]; [|discriminate].
  destruct (extended_at lm INDEX_TIP INDEX_PIP) as [b2|]; [|discriminate].
  destruct (extended_at lm MIDDLE_TIP MIDDLE_PIP) as [b3|]; [|discriminate].
  destruct (extended_at lm RING_TIP RING_PIP) as [b4|]; [|discriminate].
  destruct (extended_at lm PINKY_TIP PINKY_PIP) as [b5|]; [|discriminate].
  cbn in Hfs. injection Hfs as -> -> -> -> ->.
  cbn [Py.bind existsb forallb id].
  destruct thumb, index, middle, ring, pinky; reflexivity.
Qed.

End Classify.

(** ** Translation *)





(** ** The dead zone of the direction functions *)

Lemma dead_zone_no_direction (d : Q) :
  Qabs d <= 0.1 -> Py.lt d (-0.1) = false /\ Py.gt d 0.1 = false.
Proof.
  intro H. apply Qabs_Qle_condition in H. destruct H as [H1 H2].
  split; [apply lt_false_iff | apply gt_false_iff]; lra.
Qed.

Lemma thumb_dead_zone (lm : list Landmark) (handedness : string) (d : Q * Q) :
  displacement lm GestureClassifier.THUMB_TIP = Py.Ok d ->
  dominant_magnitude d <= 0.1 ->
  GestureClassifier._get_thumb_direction lm handedness = Py.Ok "unknown".
Proof.
  unfold displacement, GestureClassifier._get_thumb_direction.
  destruct (Py.getitem lm GestureClassifier.WRIST) as [w|]; [|discriminate].
  destruct (Py.getitem lm GestureClassifier.THUMB_TIP) as [p|]; [|discriminate].
  cbn [Py.bind].
  destruct (coord_x w) as [wx|]; [|discriminate].
  destruct (coord_y w) as [wy|]; [|discriminate].
  destruct (coord_x p) as [px|]; [|discriminate].
  destruct (coord_y p) as [py|]; [|discriminate].
  cbn [Py.bind Py.ret]. intros [= <-]. unfold dominant_magnitude.
  destruct (Py.gt (Qabs (px - wx)) (Qabs (py - wy))); intro H;
    destruct (dead_zone_no_direction _ H) as [-> ->]; reflexivity.
Qed.

Lemma point_dead_zone (lm : list Landmark) (handedness : string) (d : Q * Q) :
  displacement lm GestureClassifier.INDEX_TIP = Py.Ok d ->
  dominant_magnitude d <= 0.1 ->
  GestureClassifier._get_point_direction lm handedness = Py.Ok "unknown".
Proof.
  unfold displacement, GestureClassifier._get_point_direction.
  destruct (Py.getitem lm GestureClassifier.WRIST) as [w|]; [|discriminate].
  destruct (Py.getitem lm GestureClassifier.INDEX_TIP) as [p|]; [|discriminate].
  cbn [Py.bind].
  destruct (coord_x w) as [wx|]; [|discriminate].
  destruct (coord_y w) as [wy|]; [|discriminate].
  destruct (coord_x p) as [px|]; [|discriminate].
  destruct (coord_y p) as [py|]; [|discriminate].
  cbn [Py.bind Py.ret]. intros [= <-]. unfold dominant_magnitude.
  destruct (Py.gt (Qabs (px - wx)) (Qabs (py - wy))); intro H;
    destruct (dead_zone_no_direction _ H) as [-> ->]; reflexivity.
Qed.

(** In the dead zone both direction rules return the label ["unknown"]
    paired with the confidence of the rule, not with [0.0]. *)
Lemma dead_zone_confidence (lm : list Landmark) (handedness : string) (d : Q * Q) :
  length lm = 21%nat ->
  dominant_magnitude d <= 0.1 ->
  (finger_states lm = Py.Ok (true, false, false, false, false) ->
   displacement lm GestureClassifier.THUMB_TIP = Py.Ok d ->
   GestureClassifier.classify lm handedness = Py.Ok ("unknown", 0.85))
  /\
  (finger_states lm = Py.Ok (false, true, false, false, false) ->
   displacement lm GestureClassifier.INDEX_TIP = Py.Ok d ->
   GestureClassifier.classify lm handedness = Py.Ok ("unknown", 0.80)).
Proof.
  intros Hlen Hd. split; intros Hfs Hdisp.
  - rewrite (classify_cascade lm handedness Hlen Hfs). cbn [andb negb].
    now rewrite (thumb_dead_zone lm handedness Hdisp Hd).
  - rewrite (classify_cascade lm handedness Hlen Hfs).
    cbn [andb negb orb]. unfold GestureClassifier.classify_from_victory.
    cbn [andb negb].
    now rewrite (point_dead_zone lm handedness Hdisp Hd).
Qed.

(** ** The labels of the classifier *)

Lemma thumb_direction_labels (lm : list Landmark) (handedness d : string) :
  GestureClassifier._get_thumb_direction lm handedness = Py.Ok d ->
  In d GESTURE_LABELS.
Proof.
  unfold GestureClassifier._get_thumb_direction.
  destruct (Py.getitem lm GestureClassifier.WRIST) as [w|]; [|discriminate].
  destruct (Py.getitem lm GestureClassifier.THUMB_TIP) as [p|]; [|discriminate].
  cbn [Py.bind].
  destruct (coord_x w) as [wx|]; [|discriminate].
  destruct (coord_y w) as [wy|]; [|discriminate].
  destruct (coord_x p) as [px|]; [|discriminate].
  destruct (coord_y p) as [py|]; [|discriminate].
  cbn [Py.bind Py.ret].
  repeat match goal with
         | |- context [if ?b then _ else _] => destruct b
         end; intros [= <-]; cbn; tauto.
Qed.

Lemma point_direction_labels (lm : list Landmark) (handedness d : string) :
  GestureClassifier._get_point_direction lm handedness = Py.Ok d ->
  In d GESTURE_LABELS.
Proof.
  unfold GestureClassifier._get_point_direction.
  destruct (Py.getitem lm GestureClassifier.WRIST) as [w|]; [|discriminate].
  destruct (Py.getitem lm GestureClassifier.INDEX_TIP) as [p|]; [|discriminate].
  cbn [Py.bind].
  destruct (coord_x w) as [wx|]; [|discriminate].
  destruct (coord_y w) as [wy|]; [|discriminate].
  destruct (coord_x p) as [px|]; [|discriminate].
  destruct (coord_y p) as [py|]; [|discriminate].
  cbn [Py.bind Py.ret].
  repeat match goal with
         | |- context [if ?b then _ else _] => destruct b
         end; intros [= <-]; cbn; tauto.
Qed.

Lemma classify_from_victory_labels
    (lm : list Landmark) (handedness : string) (i m r p : bool) (g : string) (c : Q) :
  GestureClassifier.classify_from_victory lm handedness i m r p = Py.Ok (g, c) ->
  In g GESTURE_LABELS.
Proof.
  unfold GestureClassifier.classify_from_victory.
  destruct i, m, r, p; cbn [andb negb Py.ret];
    try (intros [= <- _]; cbn; tauto).
  destruct (GestureClassifier._get_point_direction lm handedness) as [d|] eqn:E;
    [|discriminate].
  cbn. intros [= <- _]. exact (point_direction_labels _ _ E).
Qed.

(** Every label [classify] returns is one of the thirteen of
    [GESTURE_LABELS], and ["unknown"] is among those it returns. *)
Lemma classify_labels (lm : list Landmark) (handedness g : string) (c : Q) :
  GestureClassifier.classify lm handedness = Py.Ok (g, c) ->
  In g GESTURE_LABELS.
Proof.
  destruct (Nat.eq_dec (length lm) 21) as [Hlen|Hlen].
  - destruct (finger_states lm) as [[[[[t i] m] r] p]|e] eqn:Hfs.
    + rewrite (classify_cascade lm handedness Hlen Hfs).
      destruct t, i, m, r, p; cbn [andb negb orb Py.ret];
        try (intros [= <- _]; cbn; tauto);
        try apply classify_from_victory_labels.
      * destruct (GestureClassifier._finger_spread lm) as [s|]; [|discriminate].
        cbn [Py.bind]. destruct (Py.gt s 0.3).
        -- intros [= <- _]. cbn. tauto.
        -- apply classify_from_victory_labels.
      * destruct (GestureClassifier._get_thumb_direction lm handedness)
          as [d|] eqn:E; [|discriminate].
        cbn. intros [= <- _]. exact (thumb_direction_labels _ _ E).
    + unfold GestureClassifier.classify. rewrite Hlen. cbn [Nat.eqb negb].
      unfold finger_states in Hfs.
      repeat match goal with
             | |- context [GestureClassifier.extended_at lm ?a ?b] =>
                 destruct (GestureClassifier.extended_at lm a b);
                 cbn [Py.bind] in *; try discriminate
             end.
  - unfold GestureClassifier.classify.
    destruct (length lm =? 21)%nat eqn:E.
    + apply Nat.eqb_eq in E. contradiction.
    + intros [= <- _]. cbn. tauto.
Qed.

Lemma min2_Qmin (a b : Q) : Py.min2 a b = Qmin a b.
Proof.
  unfold Py.min2, Py.lt, Qmin, GenericMinMax.gmin.
  rewrite <- (Qcompare_antisym a b). destruct (a ?= b); reflexivity.
Qed.

Lemma classify_wrong_length_aux (lm : list Landmark) (handedness : string) :
  length lm <> 21%nat ->
  GestureClassifier.classify lm handedness = Py.Ok ("unknown", 0.0).
Proof.
  intro H. unfold GestureClassifier.classify.
  destruct (length lm =? 21)%nat eqn:E; [|reflexivity].
  apply Nat.eqb_eq in E. contradiction.
Qed.

(** ** [classify] does not raise on readable landmarks *)

Lemma getitem_readable (lm : list Landmark) (i : nat) :
  Forall readable lm -> (i < length lm)%nat ->
  exists p, Py.getitem lm i = Py.Ok p /\ readable p.
Proof.
  intros Hall Hi. destruct (getitem_in_range lm Hi) as [p Hp].
  exists p. split; [exact Hp|].
  unfold Py.getitem in Hp. destruct (nth_error lm i) as [q|] eqn:E; [|discriminate].
  injection Hp as <-. rewrite Forall_forall in Hall.
  apply Hall. exact (nth_error_In _ _ E).
Qed.

Lemma mapM_ok {A B} (f : A -> Py.result B) (l : list A) :
  Forall (fun a => exists b, f a = Py.Ok b) l ->
  exists bs, Py.mapM f l = Py.Ok bs /\ length bs = length l.
Proof.
  induction 1 as [|a l [b Hb] _ [bs [Hbs Hlen]]].
  - now exists [].
  - exists (b :: bs). cbn [Py.mapM]. rewrite Hb, Hbs. cbn. now rewrite Hlen.
Qed.

Lemma fold_max_ge (l : list Q) (m : Q) :
  m <= fold_left (fun m y => if Py.gt y m then y else m) l m.
Proof.
  revert m. induction l as [|y l IH]; intro m; cbn [fold_left].
  - apply Qle_refl.
  - destruct (Py.gt y m) eqn:E.
    + apply gt_true_iff in E. eapply Qle_trans; [|apply IH]. now apply Qlt_le_weak.
    + apply IH.
Qed.

Lemma fold_min_le (l : list Q) (m : Q) :
  fold_left (fun m y => if Py.lt y m then y else m) l m <= m.
Proof.
  revert m. induction l as [|y l IH]; intro m; cbn [fold_left].
  - apply Qle_refl.
  - destruct (Py.lt y m) eqn:E.
    + apply lt_true_iff in E. eapply Qle_trans; [apply IH|]. now apply Qlt_le_weak.
    + apply IH.
Qed.

Lemma max_min_ok (l : list Q) :
  l <> [] ->
  exists mx mn, Py.max l = Py.Ok mx /\ Py.min l = Py.Ok mn /\ mn <= mx.
Proof.
  destruct l as [|x l]; [congruence|]. intros _.
  do 2 eexists. split; [reflexivity|]. split; [reflexivity|].
  eapply Qle_trans; [apply fold_min_le | apply fold_max_ge].
Qed.

Lemma finger_spread_total (lm : list Landmark) :
  length lm = 21%nat -> Forall readable lm ->
  exists s, GestureClassifier._finger_spread lm = Py.Ok s.
Proof.
  intros Hlen Hall. unfold GestureClassifier._finger_spread.
  destruct (@mapM_ok _ _ (fun idx => Py.bind (Py.getitem lm idx) (fun p => coord_x p))
              [4; 8; 12; 16; 20]%nat) as (tips & -> & Htips).
  { repeat constructor;
      match goal with
      | |- exists b, Py.bind (Py.getitem lm ?i) _ = _ =>
          destruct (@getitem_readable lm i Hall ltac:(lia)) as (p & -> & [[x Hx] _]);
          exists x; exact Hx
      end. }
  destruct (@mapM_ok _ _ coord_x lm) as (all_x & -> & Hallx).
  { eapply Forall_impl; [|exact Hall]. intros p [Hx _]. exact Hx. }
  cbn [Py.bind].
  destruct (@max_min_ok tips) as (mx & mn & -> & -> & Hle).
  { intros ->. discriminate Htips. }
  destruct (@max_min_ok all_x) as (ax & an & -> & -> & Hle').
  { intros ->. rewrite Hlen in Hallx. discriminate Hallx. }
  cbn [Py.bind]. unfold Py.truediv.
  destruct (Qeq_bool (ax - an + 0.000001) 0) eqn:E.
  - apply Qeq_bool_iff in E. lra.
  - cbn [Py.bind Py.ret]. eauto.
Qed.

Lemma extended_at_total (lm : list Landmark) (tip pip : nat) :
  Forall readable lm -> (tip < length lm)%nat -> (pip < length lm)%nat ->
  exists b, GestureClassifier.extended_at lm tip pip = Py.Ok b.
Proof.
  intros Hall Ht Hp. unfold GestureClassifier.extended_at.
  destruct (getitem_readable Hall Ht) as (a & -> & [_ [ya Ha]]).
  destruct (getitem_readable Hall Hp) as (b & -> & [_ [yb Hb]]).
  cbn [Py.bind]. unfold GestureClassifier._is_extended.
  rewrite Ha, Hb. cbn. eauto.
Qed.

Lemma direction_total (lm : list Landmark) (handedness : string) :
  length lm = 21%nat -> Forall readable lm ->
  (exists d, GestureClassifier._get_thumb_direction lm handedness = Py.Ok d)
  /\ (exists d, GestureClassifier._get_point_direction lm handedness = Py.Ok d).
Proof.
  intros Hlen Hall.
  unfold GestureClassifier._get_thumb_direction,
    GestureClassifier._get_point_direction.
  destruct (@getitem_readable lm GestureClassifier.WRIST Hall)
    as (w & Hw & [[wx Hwx] [wy Hwy]]);
    [unfold GestureClassifier.WRIST; lia|].
  destruct (@getitem_readable lm GestureClassifier.THUMB_TIP Hall)
    as (t & Ht & [[tx Htx] [ty Hty]]);
    [unfold GestureClassifier.THUMB_TIP; lia|].
  destruct (@getitem_readable lm GestureClassifier.INDEX_TIP Hall)
    as (i & Hi & [[ix Hix] [iy Hiy]]);
    [unfold GestureClassifier.INDEX_TIP; lia|].
  rewrite Hw, Ht, Hi. cbn [Py.bind].
  rewrite Hwx, Hwy, Htx, Hty, Hix, Hiy. cbn [Py.bind].
  split;
    repeat match goal with
           | |- context [if ?b then _ else _] => destruct b
           end; eauto.
Qed.

(** On landmarks whose coordinates can all be read, [classify] returns a
    pair; it raises nothing. *)
Lemma classify_total (lm : list Landmark) (handedness : string) :
  Forall readable lm ->
  exists g c, GestureClassifier.classify lm handedness = Py.Ok (g, c).
Proof.
  intro Hall. destruct (Nat.eq_dec (length lm) 21) as [Hlen|Hlen].
  - assert (Hfs : exists t i m r p,
               finger_states lm = Py.Ok (t, i, m, r, p)).
    { unfold finger_states.
      destruct (@extended_at_total lm GestureClassifier.THUMB_TIP
                  GestureClassifier.THUMB_IP Hall) as [t ->];
        [unfold GestureClassifier.THUMB_TIP; lia
        |unfold GestureClassifier.THUMB_IP; lia|].
      destruct (@extended_at_total lm GestureClassifier.INDEX_TIP
                  GestureClassifier.INDEX_PIP Hall) as [i ->];
        [unfold GestureClassifier.INDEX_TIP; lia
        |unfold GestureClassifier.INDEX_PIP; lia|].
      destruct (@extended_at_total lm GestureClassifier.MIDDLE_TIP
                  GestureClassifier.MIDDLE_PIP Hall) as [m ->];
        [unfold GestureClassifier.MIDDLE_TIP; lia
        |unfold GestureClassifier.MIDDLE_PIP; lia|].
      destruct (@extended_at_total lm GestureClassifier.RING_TIP
                  GestureClassifier.RING_PIP Hall) as [r ->];
        [unfold GestureClassifier.RING_TIP; lia
        |unfold GestureClassifier.RING_PIP; lia|].
      destruct (@extended_at_total lm GestureClassifier.PINKY_TIP
                  GestureClassifier.PINKY_PIP Hall) as [p ->];
        [unfold GestureClassifier.PINKY_TIP; lia
        |unfold GestureClassifier.PINKY_PIP; lia|].
      cbn. do 5 eexists. reflexivity. }
    destruct Hfs as (t & i & m & r & p & Hfs).
    rewrite (classify_cascade lm handedness Hlen Hfs).
    destruct (direction_total handedness Hlen Hall) as [[dt Hdt] [dp Hdp]].
    destruct (finger_spread_total Hlen Hall) as [s Hs].
    unfold GestureClassifier.classify_from_victory.
    rewrite Hdt, Hdp, Hs. cbn [Py.bind Py.ret].
    repeat match goal with
           | |- context [if ?b then _ else _] => destruct b
           end; eauto.
  - rewrite (classify_wrong_length_aux lm handedness Hlen). eauto.
Qed.

(** ** Claims about [classify] *)

(** C1, at a concrete observation.  A fist far from the camera with only
    the thumb raised, and the same fist with only the index finger raised,
    reach direction resolution with a dominant-axis displacement of
    magnitude [0.09], inside the dead zone.  [classify] returns the label
    ["unknown"] paired with the confidence of the rule, [0.85] and [0.80],
    where the claim says [0.0]. *)
Theorem dead_zone_confidence_far_hand :
  finger_states (far_hand true false) = Py.Ok (true, false, false, false, false)
  /\ displacement (far_hand true false) GestureClassifier.THUMB_TIP
     = Py.Ok (0.48 - 0.5, 0.41 - 0.5)
  /\ dominant_magnitude (0.48 - 0.5, 0.41 - 0.5) <= 0.1
  /\ GestureClassifier.classify (far_hand true false) "Right"
     = Py.Ok ("unknown", 0.85)
  /\ finger_states (far_hand false true) = Py.Ok (false, true, false, false, false)
  /\ displacement (far_hand false true) GestureClassifier.INDEX_TIP
     = Py.Ok (0.5 - 0.5, 0.41 - 0.5)
  /\ dominant_magnitude (0.5 - 0.5, 0.41 - 0.5) <= 0.1
  /\ GestureClassifier.classify (far_hand false true) "Right"
     = Py.Ok ("unknown", 0.80).
Proof.
  repeat split; try reflexivity; vm_compute; discriminate.
Qed.

(** C4.  For an observation of 21 landmarks with all five fingers extended
    and spread [s]: when [s > 0.3], [classify] returns
    [("open_palm", min(0.95, 0.7 + s * 0.25))]; when [s <= 0.3], the
    open-palm rule does not fire, [classify] continues with the victory,
    rock and index-point rules in that order, none of which can match five
    extended fingers, and returns [("unknown", 0.0)]. *)
Theorem open_palm_rule (lm : list Landmark) (handedness : string) (s : Q) :
  length lm = 21%nat ->
  finger_states lm = Py.Ok (true, true, true, true, true) ->
  GestureClassifier._finger_spread lm = Py.Ok s ->
  (0.3 < s ->
   GestureClassifier.classify lm handedness
   = Py.Ok ("open_palm", Qmin 0.95 (0.7 + s * 0.25)))
  /\
  (s <= 0.3 ->
   GestureClassifier.classify lm handedness
   = GestureClassifier.classify_from_victory lm handedness true true true true
   /\ GestureClassifier.classify lm handedness = Py.Ok ("unknown", 0.0)).
Proof.
  intros Hlen Hfs Hs.
  rewrite (classify_cascade lm handedness Hlen Hfs).
  cbn [andb negb orb]. rewrite Hs. cbn [Py.bind]. split; intro H.
  - apply gt_true_iff in H. rewrite H, min2_Qmin. reflexivity.
  - apply gt_false_iff in H. rewrite H. split; reflexivity.
Qed.

Lemma open_palm_rule_witness :
  GestureClassifier.classify mock_open_spread "Right"
  = Py.Ok ("open_palm", Qmin 0.95 (0.7 + (4000000000 # 4000010000) * 0.25))
  /\ GestureClassifier.classify mock_open_narrow "Left" = Py.Ok ("unknown", 0.0).
Proof.
  split.
  - apply (open_palm_rule mock_open_spread "Right" (s := 4000000000 # 4000010000));
      reflexivity.
  - apply (open_palm_rule mock_open_narrow "Left" (s := 0 # 5000100000));
      try reflexivity.
    vm_compute. discriminate.
Defined.

(** C6.  For a list of landmarks whose length is not 21, [classify]
    returns [("unknown", 0.0)]: it does not raise, whatever the landmarks
    are, including landmarks none of whose coordinates can be read. *)
Theorem classify_wrong_length (lm : list Landmark) (handedness : string) :
  length lm <> 21%nat ->
  GestureClassifier.classify lm handedness = Py.Ok ("unknown", 0.0).
Proof. apply classify_wrong_length_aux. Qed.

Lemma classify_wrong_length_witness :
  coord_y (LmRow []) = Py.Raise Py.IndexError
  /\ GestureClassifier.classify unreadable_short "Right" = Py.Ok ("unknown", 0.0).
Proof.
  split; [reflexivity|].
  apply (classify_wrong_length unreadable_short "Right").
  cbn. discriminate.
Defined.



(** C9.  [classify] does not depend on its handedness argument: on the
    same landmarks, any two handedness values, ["Left"] and ["Right"] among
    them, give the same result, exceptions included; neither direction
    function reads the argument. *)
Theorem classify_ignores_handedness (lm : list Landmark) (h1 h2 : string) :
  GestureClassifier.classify lm h1 = GestureClassifier.classify lm h2
  /\ GestureClassifier.classify lm "Left" = GestureClassifier.classify lm "Right"
  /\ GestureClassifier._get_point_direction lm h1
     = GestureClassifier._get_point_direction lm h2
  /\ GestureClassifier._get_thumb_direction lm h1
     = GestureClassifier._get_thumb_direction lm h2.
Proof. repeat split. Qed.

(* ================================================================== *)
(** * The temporal smoother                                           *)
(* ================================================================== *)

Lemma count_le_length (g : string) (l : list string) :
  (Py.count g l <= length l)%nat.
Proof. unfold Py.count. apply filter_length_le. Qed.

Lemma count_count_occ (g : string) (l : list string) :
  Py.count g l = count_occ string_dec l g.
Proof.
  unfold Py.count. induction l as [|a l IH]; [reflexivity|].
  cbn [filter count_occ]. destruct (string_dec a g) as [->|Hne].
  - rewrite String.eqb_refl. cbn [length]. now rewrite IH.
  - destruct (String.eqb_spec g a) as [->|_]; [contradiction|exact IH].
Qed.

Lemma slice_last_rev {A} (k : nat) (l : list A) :
  Py.slice_last k l = rev (firstn k (rev l)).
Proof. unfold Py.slice_last. now rewrite firstn_rev, rev_involutive. Qed.

Lemma len_nonzero {A} (l : list A) :
  (0 < length l)%nat -> Qeq_bool (Py.len l) 0 = false.
Proof.
  intro H. apply not_true_iff_false. intro E. apply Qeq_bool_iff in E.
  unfold Py.len, Qeq in E. cbn in E. lia.
Qed.

Lemma truediv_len {A} (s : Q) (l : list A) :
  (0 < length l)%nat -> Py.truediv s (Py.len l) = Py.Ok (s / Py.len l).
Proof. intro H. unfold Py.truediv. now rewrite len_nonzero. Qed.

Lemma sum_fold_left (l : list Q) (a : Q) :
  fold_left Qplus l a == a + fold_right Qplus 0 l.
Proof.
  revert a. induction l as [|x l IH]; intro a; cbn [fold_left fold_right].
  - ring.
  - rewrite IH. ring.
Qed.

Lemma sum_fold_right (l : list Q) : Py.sum l == fold_right Qplus 0 l.
Proof. unfold Py.sum. rewrite sum_fold_left. ring. Qed.

Lemma getitem_neg_2 {A} (l : list A) :
  (2 <= length l)%nat ->
  exists a, Py.getitem_neg l 2 = Py.Ok a /\ nth_error (rev l) 1 = Some a.
Proof.
  intro H. unfold Py.getitem_neg.
  destruct (Nat.leb_spec 2 (length l)) as [_|]; [|lia].
  destruct (getitem_in_range l (i := length l - 2)) as [a Ha]; [lia|].
  exists a. split; [exact Ha|].
  rewrite nth_error_rev. destruct (Nat.ltb_spec 1 (length l)) as [_|]; [|lia].
  unfold Py.getitem in Ha.
  destruct (nth_error l (length l - 2)); congruence.
Qed.

Section Smoother.

Import GestureClassifier.

(** [smooth_gesture] as one expression on the history after the append
    and the eviction. *)
Lemma smooth_gesture_eq (self : t) (g : string) (c w : Q) :
  let h0 := (gesture_history self ++ [(g, c)])%list in
  let h := if (history_size self <? length h0)%nat then tl h0 else h0 in
  smooth_gesture g c w self
  = (if (0 <? length h)%nat
        && (2 <=? Py.count g (map fst (Py.slice_last 3 h)))%nat then
       match Py.truediv (Py.sum (map snd (Py.slice_last 3 h)))
                        (Py.len (map snd (Py.slice_last 3 h))) with
       | Py.Ok q => Py.Ok (g, q)
       | Py.Raise e => Py.Raise e
       end
     else if negb (g =? "unknown") then Py.Ok (g, c)
     else if (1 <? length h)%nat then
       match Py.getitem_neg h 2 with
       | Py.Ok (lg, lc) => Py.Ok (lg, lc * 0.5)
       | Py.Raise e => Py.Raise e
       end
     else Py.Ok ("unknown", 0.0),
     {| gesture_history := h; history_size := history_size self |}).
Proof.
  intros h0 h.
  unfold smooth_gesture, Py.bindM, history_append, Py.get, history_pop0,
    Py.retM, Py.lift.
  cbn [gesture_history history_size]. fold h0.
  assert (Hpop : Py.pop0 h0 = Py.Ok (tl h0)).
  { subst h0. destruct (gesture_history self); reflexivity. }
  subst h.
  destruct (history_size self <? length h0)%nat eqn:E;
    cbn [gesture_history history_size]; [rewrite Hpop|];
    cbn [gesture_history history_size];
    match goal with
    | |- _ = (_, {| gesture_history := ?l; history_size := _ |}) =>
        generalize l; intro h
    end;
    (destruct (0 <? length h)%nat; cbn [andb];
     [ destruct (2 <=? Py.count g (map fst (Py.slice_last 3 h)))%nat;
       [ destruct Py.truediv; reflexivity | ] | ];
     (destruct (negb (g =? "unknown")); [reflexivity|]);
     (destruct (1 <? length h)%nat; [|reflexivity]);
     destruct (Py.getitem_neg h 2) as [[lg lc]|]; reflexivity).
Qed.

(** The division of the repeated-gesture branch never fails: two
    occurrences among the recent entries make them non-empty. *)
Lemma recent_mean_ok (g : string) (h : list (string * Q)) :
  (2 <=? Py.count g (map fst (Py.slice_last 3 h)))%nat = true ->
  Py.truediv (Py.sum (map snd (Py.slice_last 3 h)))
             (Py.len (map snd (Py.slice_last 3 h)))
  = Py.Ok (Py.sum (map snd (Py.slice_last 3 h))
           / Py.len (map snd (Py.slice_last 3 h))).
Proof.
  intro H. apply Nat.leb_le in H.
  apply truediv_len. rewrite length_map.
  pose proof (count_le_length g (map fst (Py.slice_last 3 h))) as Hc.
  rewrite length_map in Hc. lia.
Qed.

End Smoother.

(** [smooth_gesture] raises nothing, whatever the history. *)
Lemma smooth_gesture_total (self : GestureClassifier.t) (g : string) (c w : Q) :
  exists r self', GestureClassifier.smooth_gesture g c w self = (Py.Ok r, self').
Proof.
  rewrite smooth_gesture_eq.
  match goal with
  | |- context [GestureClassifier.mk ?l _] => generalize l; intro h
  end.
  destruct (0 <? length h)%nat; cbn [andb].
  - destruct (2 <=? Py.count g (map fst (Py.slice_last 3 h)))%nat eqn:E.
    + rewrite (recent_mean_ok g h E). eauto.
    + destruct (negb (g =? "unknown")); [eauto|].
      destruct (Nat.ltb_spec 1 (length h)) as [H|H]; [|eauto].
      destruct (@getitem_neg_2 _ h H) as [[lg lc] [-> _]]. eauto.
  - destruct (negb (g =? "unknown")); [eauto|].
    destruct (Nat.ltb_spec 1 (length h)) as [H|H]; [|eauto].
    destruct (@getitem_neg_2 _ h H) as [[lg lc] [-> _]]. eauto.
Qed.

(** C10.  For an input gesture [g] other than ["unknown"], and any
    confidence, history and history size, [smooth_gesture] returns without
    raising and the gesture it returns is [g]; so a call that returns
    another label than its input was given ["unknown"]. *)
Theorem smooth_keeps_real_gesture
    (self : GestureClassifier.t) (g : string) (c w : Q) :
  g <> "unknown" ->
  (exists c' self',
     GestureClassifier.smooth_gesture g c w self = (Py.Ok (g, c'), self'))
  /\
  (forall g0 c0 w0 self0 g' c' self',
     GestureClassifier.smooth_gesture g0 c0 w0 self0 = (Py.Ok (g', c'), self') ->
     g' <> g0 -> g0 = "unknown").
Proof.
  intro Hg. split.
  - rewrite smooth_gesture_eq.
    match goal with
    | |- context [GestureClassifier.mk ?l _] => generalize l; intro h
    end.
    destruct (0 <? length h)%nat; cbn [andb].
    + destruct (2 <=? Py.count g (map fst (Py.slice_last 3 h)))%nat eqn:E.
      * rewrite (recent_mean_ok g h E). eauto.
      * apply String.eqb_neq in Hg. rewrite Hg. cbn [negb]. eauto.
    + apply String.eqb_neq in Hg. rewrite Hg. cbn [negb]. eauto.
  - intros g0 c0 w0 self0 g' c' self'. rewrite smooth_gesture_eq.
    match goal with
    | |- context [GestureClassifier.mk ?l _] => generalize l; intro h
    end.
    intros H Hne.
    destruct ((0 <? length h)%nat
              && (2 <=? Py.count g0 (map fst (Py.slice_last 3 h)))%nat).
    + destruct Py.truediv; [|discriminate].
      injection H as -> _ _. contradiction.
    + destruct (String.eqb_spec g0 "unknown") as [->|_]; [reflexivity|].
      cbn [negb] in H. injection H as -> _ _. contradiction.
Qed.

Lemma smooth_keeps_real_gesture_witness :
  exists c' self',
    GestureClassifier.smooth_gesture "victory" 0.88 0.7
      (GestureClassifier.mk [("rock", 0.88); ("unknown", 0.0)] 5)
    = (Py.Ok ("victory", c'), self').
Proof.
  apply (smooth_keeps_real_gesture
           (GestureClassifier.mk [("rock", 0.88); ("unknown", 0.0)] 5)
           (g := "victory") 0.88 0.7).
  discriminate.
Defined.

(** C3.  On a classifier whose history size is 5, [smooth_gesture] does
    what the ordered procedure of the specification says: it never raises,
    it leaves the history appended and evicted as specified, it returns
    the specified label, and it returns the specified confidence (as a
    number: the two sides add and halve in different ways). *)
Theorem smooth_gesture_refines_spec
    (self : GestureClassifier.t) (g : string) (c w : Q) :
  GestureClassifier.history_size self = 5%nat ->
  let spec := SmootherSpec.smooth (GestureClassifier.gesture_history self) g c in
  exists c',
    GestureClassifier.smooth_gesture g c w self
    = (Py.Ok (fst (snd spec), c'), GestureClassifier.mk (fst spec) 5)
    /\ c' == snd (snd spec).
Proof.
  intros H5 spec. subst spec. rewrite smooth_gesture_eq, H5.
  unfold SmootherSpec.smooth, SmootherSpec.append_evict, SmootherSpec.capacity,
    SmootherSpec.occurrences, SmootherSpec.last_entries.
  set (h0 := (GestureClassifier.gesture_history self ++ [(g, c)])%list).
  assert (Hlen0 : (1 <= length h0)%nat).
  { subst h0. rewrite length_app. cbn. lia. }
  set (h := if (5 <? length h0)%nat then tl h0 else h0).
  assert (Hlen : (1 <= length h)%nat).
  { subst h. destruct (Nat.ltb_spec 5 (length h0)); [|exact Hlen0].
    destruct h0; cbn in *; lia. }
  cbn [fst snd].
  rewrite <- slice_last_rev, <- count_count_occ.
  destruct (Nat.ltb_spec 0 (length h)) as [_|]; [|lia]. cbn [andb].
  destruct (2 <=? Py.count g (map fst (Py.slice_last 3 h)))%nat eqn:E.
  - rewrite (recent_mean_ok g h E). eexists. split; [reflexivity|].
    cbn [snd]. unfold SmootherSpec.mean, Py.len.
    now rewrite sum_fold_right.
  - destruct (negb (g =? "unknown")).
    + exists c. split; reflexivity.
    + destruct (Nat.leb_spec 2 (length h)) as [H2|H2];
        destruct (Nat.ltb_spec 1 (length h)) as [H1|H1]; try lia.
      * destruct (getitem_neg_2 h H2) as [[lg lc] [Ha Hb]].
        rewrite Ha, Hb. exists (lc * 0.5). split; [reflexivity|].
        cbn [snd]. field.
      * exists 0.0. split; reflexivity.
Qed.

Lemma smooth_gesture_refines_spec_witness :
  exists c',
    GestureClassifier.smooth_gesture "unknown" 0.0 0.7
      (GestureClassifier.mk [("rock", 0.88); ("victory", 0.88)] 5)
    = (Py.Ok ("victory", c'),
       GestureClassifier.mk [("rock", 0.88); ("victory", 0.88); ("unknown", 0.0)] 5)
    /\ c' == 0.88 / 2.
Proof.
  exact (smooth_gesture_refines_spec
           (GestureClassifier.mk [("rock", 0.88); ("victory", 0.88)] 5)
           "unknown" 0.0 0.7 eq_refl).
Defined.

(* ================================================================== *)
(** * The command mapper                                              *)
(* ================================================================== *)

Lemma dict_get_outside {V} (d : Py.dict V) (k : string) (default : V) :
  ~ In k (Py.keys d) -> Py.dict_get d k default = default.
Proof.
  unfold Py.dict_get, Py.keys. induction d as [|[k0 v] d IH]; intro H.
  - reflexivity.
  - cbn [find fst]. destruct (String.eqb_spec k0 k) as [->|Hne].
    + exfalso. apply H. now left.
    + apply IH. intro Hin. apply H. now right.
Qed.

(** C7 as stated fails at the label ["unknown"]: it is a label of the
    gesture set, [classify] returns it, and its display text is empty. *)
Lemma unknown_has_empty_command :
  ~ (forall g, In g GESTURE_LABELS ->
               fst (command_mapper.get_gesture_command g) <> "").
Proof.
  intro H. apply (H "unknown"); [|reflexivity].
  apply (classify_labels unreadable_short "Right" (c := 0.0)). reflexivity.
Qed.

(** C7, amended.  Both getters are functions of their key alone.  Every
    label of the gesture set other than ["unknown"] is a key of
    [GESTURE_TO_COMMAND], every shape label is a key of
    [SHAPE_TO_COMMAND], and the getter returns the entry of the table,
    whose display text is not empty.  A key outside the table, ["unknown"]
    among them, returns [("", (128, 128, 128))]. *)
Theorem command_lookup_total :
  (forall g, In g GESTURE_LABELS -> g <> "unknown" ->
     In (g, command_mapper.get_gesture_command g) command_mapper.GESTURE_TO_COMMAND
     /\ fst (command_mapper.get_gesture_command g) <> "")
  /\ (forall s, In s SHAPE_LABELS ->
     In (s, command_mapper.get_shape_command s) command_mapper.SHAPE_TO_COMMAND
     /\ fst (command_mapper.get_shape_command s) <> "")
  /\ (forall k, ~ In k (Py.keys command_mapper.GESTURE_TO_COMMAND) ->
     command_mapper.get_gesture_command k = ("", (128, 128, 128))%Z)
  /\ (forall k, ~ In k (Py.keys command_mapper.SHAPE_TO_COMMAND) ->
     command_mapper.get_shape_command k = ("", (128, 128, 128))%Z)
  /\ command_mapper.get_gesture_command "unknown" = ("", (128, 128, 128))%Z.
Proof.
  split; [|split; [|split; [|split]]].
  - intros g H Hne. cbn in H.
    repeat (destruct H as [<-|H];
            [first [contradiction | split; [cbn; tauto | discriminate]]|]).
    destruct H.
  - intros s H. cbn in H.
    repeat (destruct H as [<-|H]; [split; [cbn; tauto | discriminate]|]).
    destruct H.
  - intros k H. now apply dict_get_outside.
  - intros k H. now apply dict_get_outside.
  - reflexivity.
Qed.

Lemma command_lookup_total_witness :
  fst (command_mapper.get_gesture_command "victory") <> ""
  /\ fst (command_mapper.get_shape_command "circle") <> ""
  /\ command_mapper.get_gesture_command "wave" = ("", (128, 128, 128))%Z
  /\ command_mapper.get_shape_command "victory" = ("", (128, 128, 128))%Z.
Proof.
  destruct command_lookup_total as (Hg & Hs & Hgo & Hso & _).
  split; [|split; [|split]].
  - apply (Hg "victory"); [cbn; tauto | discriminate].
  - apply (Hs "circle"). cbn. tauto.
  - apply (Hgo "wave"). cbn. intuition discriminate.
  - apply (Hso "victory"). cbn. intuition discriminate.
Defined.

(* ================================================================== *)
(** * The validation window                                           *)
(* ================================================================== *)

Lemma count_app (g : string) (l1 l2 : list string) :
  Py.count g (l1 ++ l2) = (Py.count g l1 + Py.count g l2)%nat.
Proof. unfold Py.count. now rewrite filter_app, length_app. Qed.

Lemma count_tl (g : string) (l : list string) :
  (Py.count g (tl l) <= Py.count g l)%nat.
Proof.
  destruct l as [|a l]; [apply Nat.le_refl|].
  unfold Py.count. cbn [tl filter]. destruct (g =? a); cbn [length]; lia.
Qed.

Lemma count_not_in (g : string) (l : list string) :
  ~ In g l -> Py.count g l = 0%nat.
Proof.
  unfold Py.count. induction l as [|a l IH]; intro H; [reflexivity|].
  cbn [filter]. destruct (String.eqb_spec g a) as [->|_].
  - exfalso. apply H. now left.
  - apply IH. intro Hin. apply H. now right.
Qed.

Lemma count_pos_in (g : string) (l : list string) :
  (0 < Py.count g l)%nat -> In g l.
Proof.
  intro H. destruct (in_dec string_dec g l) as [Hin|Hout]; [exact Hin|].
  rewrite (count_not_in _ _ Hout) in H. lia.
Qed.

(** Two different labels share the entries of a list. *)
Lemma count_two (g1 g2 : string) (l : list string) :
  g1 <> g2 -> (Py.count g1 l + Py.count g2 l <= length l)%nat.
Proof.
  intro Hne. unfold Py.count. induction l as [|a l IH]; [apply Nat.le_refl|].
  cbn [filter length].
  destruct (String.eqb_spec g1 a) as [->|H1];
    destruct (String.eqb_spec g2 a) as [->|H2]; cbn [length]; try lia.
  contradiction.
Qed.

Lemma count_repeat (g : string) (n : nat) : Py.count g (repeat g n) = n.
Proof.
  unfold Py.count. induction n as [|n IH]; [reflexivity|].
  cbn [repeat filter]. rewrite String.eqb_refl. cbn [length]. now rewrite IH.
Qed.

(** [max(l, key=key)] on a non-empty list returns an item of the list
    whose key no other item exceeds. *)
Lemma max_key_spec {A} (key : A -> nat) (l : list A) :
  l <> [] ->
  exists x, Py.max_key key l = Py.Ok x
            /\ In x l /\ forall y, In y l -> (key y <= key x)%nat.
Proof.
  destruct l as [|a l]; [congruence|]. intros _. cbn [Py.max_key].
  eexists. split; [reflexivity|].
  assert (G : forall (l : list A) (m : A),
             let r := fold_left
                        (fun m y => if (key m <? key y)%nat then y else m) l m in
             (r = m \/ In r l) /\ (key m <= key r)%nat
             /\ forall y, In y l -> (key y <= key r)%nat).
  { clear. induction l as [|b l IH]; intros m; cbn [fold_left].
    - repeat split; [now left | lia | intros y []].
    - destruct (IH (if (key m <? key b)%nat then b else m)) as (Hin & Hm & Hall).
      destruct (Nat.ltb_spec (key m) (key b)) as [Hlt|Hge].
      + repeat split.
        * destruct Hin as [->|Hin]; right; [now left | now right].
        * lia.
        * intros y [<-|Hy]; [exact Hm | now apply Hall].
      + repeat split.
        * destruct Hin as [->|Hin]; [now left | right; now right].
        * exact Hm.
        * intros y [<-|Hy]; [lia | now apply Hall]. }
  destruct (G l a) as (Hin & Hm & Hall). split.
  - destruct Hin as [->|Hin]; [now left | now right].
  - intros y [<-|Hy]; [exact Hm | now apply Hall].
Qed.

Section Window.

Import hand_gesture.

(** ** Lines 109-115 *)

Lemma track_eq (h : frame_history) (g : string) (c : Q) :
  let h1 := if negb (g =? "unknown") then (h ++ [(g, c)])%list else h in
  track g c h = (Py.Ok tt, if (max_frames <? length h1)%nat then tl h1 else h1).
Proof.
  intro h1. unfold track, Py.bindM, Py.get, Py.put, Py.retM, Py.lift.
  subst h1. destruct (negb (g =? "unknown"));
    match goal with
    | |- context [(max_frames <? length ?l)%nat] =>
        destruct (max_frames <? length l)%nat eqn:E; [|reflexivity];
        destruct l; [discriminate E | reflexivity]
    end.
Qed.

Lemma tracked_eq (h : frame_history) (g : string) (c : Q) :
  tracked h g c
  = let h1 := if negb (g =? "unknown") then (h ++ [(g, c)])%list else h in
    if (max_frames <? length h1)%nat then tl h1 else h1.
Proof. unfold tracked. now rewrite track_eq. Qed.

Lemma track_tracked (h : frame_history) (g : string) (c : Q) :
  track g c h = (Py.Ok tt, tracked h g c).
Proof. rewrite tracked_eq. apply track_eq. Qed.

(** The buffer never exceeds the window size. *)
Lemma tracked_length (h : frame_history) (g : string) (c : Q) :
  (length h <= max_frames)%nat -> (length (tracked h g c) <= max_frames)%nat.
Proof.
  intro H. rewrite tracked_eq. cbv zeta. unfold max_frames in *.
  destruct (negb (g =? "unknown"));
    match goal with
    | |- context [(12 <? length ?l)%nat] =>
        destruct (Nat.ltb_spec 12 (length l)) as [H1|H1]; [|exact H1]
    end.
  - rewrite length_app in H1. cbn in H1.
    destruct (h ++ [(g, c)])%list eqn:E; cbn; [lia|].
    apply (f_equal (@length _)) in E. rewrite length_app in E. cbn in E. lia.
  - lia.
Qed.

(** Only the input label can gain an occurrence. *)
Lemma tracked_count (h : frame_history) (g l : string) (c : Q) :
  (Py.count l (map fst (tracked h g c))
   <= Py.count l (map fst h) + Py.count l [g])%nat.
Proof.
  rewrite tracked_eq. cbv zeta.
  assert (Htl : forall h' : frame_history,
             (Py.count l (map fst (if (max_frames <? length h')%nat
                                   then tl h' else h'))
              <= Py.count l (map fst h'))%nat).
  { intro h'. destruct (max_frames <? length h')%nat; [|apply Nat.le_refl].
    destruct h' as [|e h']; [apply Nat.le_refl|].
    apply (count_tl l (map fst (e :: h'))). }
  destruct (negb (g =? "unknown")).
  - etransitivity; [apply Htl|].
    rewrite map_app, count_app. cbn [map fst]. apply Nat.le_refl.
  - etransitivity; [apply Htl|]. lia.
Qed.

(** No entry labelled ["unknown"] enters the buffer. *)
Lemma tracked_no_unknown (h : frame_history) (g : string) (c : Q) :
  ~ In "unknown" (map fst h) -> ~ In "unknown" (map fst (tracked h g c)).
Proof.
  intros H. rewrite tracked_eq. cbv zeta.
  assert (Htl : forall h' : frame_history,
             ~ In "unknown" (map fst h') ->
             ~ In "unknown" (map fst (if (max_frames <? length h')%nat
                                      then tl h' else h'))).
  { intros h' Hh'. destruct (max_frames <? length h')%nat; [|exact Hh'].
    destruct h'; [exact Hh'|]. cbn in *. tauto. }
  destruct (String.eqb_spec g "unknown") as [->|Hne]; cbn [negb];
    apply Htl; [exact H|].
  rewrite map_app, in_app_iff. cbn. intuition congruence.
Qed.

End Window.

(** ** Lines 117-131, for any iteration order of [set(gesture_names)] *)

Section WindowOrder.

Import hand_gesture.

Variable set_iter : list string -> list string.
Hypothesis set_iter_spec : forall l x, In x (set_iter l) <-> In x l.

Lemma check_validated_short (h : frame_history) :
  (length h < min_frames_required)%nat ->
  check_validated set_iter h = (Py.Ok None, h).
Proof.
  intro H. unfold check_validated, Py.bindM, Py.get.
  destruct (Nat.leb_spec min_frames_required (length h)); [lia|reflexivity].
Qed.

Lemma check_validated_full (h : frame_history) :
  (min_frames_required <= length h)%nat ->
  exists mc,
    is_modal mc (map fst h)
    /\ check_validated set_iter h
       = if (min_frames_required <=? Py.count mc (map fst h))%nat
            && Py.gt (Py.sum (map snd h) / Py.len (map snd h))
                     confidence_threshold
         then (Py.Ok (Some mc), [])
         else (Py.Ok None, h).
Proof.
  intro H. unfold min_frames_required in H.
  destruct h as [|e h]; [cbn in H; lia|].
  set (hh := e :: h) in *. set (names := map fst hh).
  assert (Hne : set_iter names <> []).
  { intro E. assert (Hin : In (fst e) (set_iter names))
      by (apply set_iter_spec; now left).
    rewrite E in Hin. destruct Hin. }
  destruct (max_key_spec (fun g => Py.count g names) Hne)
    as (mc & Hmax & Hin & Hall).
  exists mc. split.
  - split; [now apply set_iter_spec|].
    intro g. destruct (in_dec string_dec g names) as [Hg|Hg].
    + apply Hall. now apply set_iter_spec.
    + rewrite (count_not_in _ _ Hg). lia.
  - unfold check_validated, Py.bindM, Py.get, Py.lift, Py.put, Py.retM.
    destruct (Nat.leb_spec min_frames_required (length hh)) as [_|Hlt];
      [|unfold min_frames_required in Hlt; lia].
    fold names. rewrite Hmax.
    rewrite truediv_len by (rewrite length_map; lia).
    destruct ((min_frames_required <=? Py.count mc names)%nat
              && Py.gt (Py.sum (map snd hh) / Py.len (map snd hh))
                       confidence_threshold); reflexivity.
Qed.

Lemma validate_with_eq (h : frame_history) (g : string) (c : Q) :
  validate_with set_iter g c h = check_validated set_iter (tracked h g c).
Proof. unfold validate_with, Py.bindM. now rewrite track_tracked. Qed.

(** A frame either emits nothing and keeps the tracked buffer, or emits
    a label and empties the buffer; it never raises. *)
Lemma validate_with_cases (h : frame_history) (g : string) (c : Q) :
  validate_with set_iter g c h = (Py.Ok None, tracked h g c)
  \/ exists m, validate_with set_iter g c h = (Py.Ok (Some m), []).
Proof.
  rewrite validate_with_eq.
  destruct (Nat.lt_ge_cases (length (tracked h g c)) min_frames_required)
    as [Hlt|Hge].
  - left. now apply check_validated_short.
  - destruct (check_validated_full _ Hge) as (mc & _ & ->).
    destruct (_ && _); [right; now exists mc | now left].
Qed.

(** What an emission implies, on any buffer. *)
Lemma validate_with_emitted (h : frame_history) (g m : string) (c : Q)
      (h_end : frame_history) :
  validate_with set_iter g c h = (Py.Ok (Some m), h_end) ->
  let h' := tracked h g c in
  h_end = []
  /\ (10 <= length h')%nat
  /\ is_modal m (map fst h')
  /\ (10 <= Py.count m (map fst h'))%nat
  /\ 0.7 < Py.sum (map snd h') / Py.len (map snd h').
Proof.
  intros E h'. rewrite validate_with_eq in E. fold h' in E.
  destruct (Nat.lt_ge_cases (length h') min_frames_required) as [Hlt|Hge].
  - rewrite (check_validated_short _ Hlt) in E. discriminate.
  - destruct (check_validated_full _ Hge) as (mc & Hmodal & E').
    rewrite E' in E. unfold min_frames_required, confidence_threshold in *.
    destruct (Nat.leb_spec 10 (Py.count mc (map fst h'))) as [Hc|Hc];
      cbn [andb] in E; [|discriminate].
    destruct (Py.gt (Py.sum (map snd h') / Py.len (map snd h')) 0.7) eqn:Eg;
      [|discriminate].
    apply gt_true_iff in Eg. injection E as <- <-. tauto.
Qed.

(** The emission condition.  On a buffer within the window size, the
    frame emits [m] exactly when the tracked buffer holds at least 10
    entries, [m] is a most frequent label with at least 10 occurrences,
    and the mean confidence of the whole buffer exceeds [0.7]. *)
Lemma validate_with_emits (h : frame_history) (g m : string) (c : Q) :
  (length h <= max_frames)%nat ->
  let h' := tracked h g c in
  validate_with set_iter g c h = (Py.Ok (Some m), [])
  <-> ((10 <= length h')%nat
       /\ is_modal m (map fst h')
       /\ (10 <= Py.count m (map fst h'))%nat
       /\ 0.7 < Py.sum (map snd h') / Py.len (map snd h')).
Proof.
  intros Hlen h'. rewrite validate_with_eq. fold h'.
  assert (Hlen' : (length h' <= 12)%nat) by now apply tracked_length.
  destruct (Nat.lt_ge_cases (length h') min_frames_required) as [Hlt|Hge].
  - rewrite (check_validated_short _ Hlt). unfold min_frames_required in Hlt.
    split; [discriminate | lia].
  - destruct (check_validated_full _ Hge) as (mc & Hmodal & ->).
    unfold min_frames_required in *. unfold confidence_threshold.
    destruct (Nat.leb_spec 10 (Py.count mc (map fst h'))) as [Hc|Hc];
      cbn [andb].
    + destruct (Py.gt (Py.sum (map snd h') / Py.len (map snd h')) 0.7) eqn:Eg.
      * apply gt_true_iff in Eg. split.
        -- intros [= <-]. tauto.
        -- intros (_ & _ & Hm & _).
           destruct (string_dec mc m) as [->|Hne]; [reflexivity|].
           pose proof (count_two (map fst h') Hne) as H2.
           rewrite length_map in H2. lia.
      * apply gt_false_iff in Eg. split; [discriminate|].
        intros (_ & _ & _ & Hgt). lra.
    + split; [discriminate|]. intros (_ & _ & Hm & _).
      destruct Hmodal as [_ Hmax]. specialize (Hmax m). lia.
Qed.

End WindowOrder.

(** The frame loop does not depend on the iteration order of the set of
    labels: any two enumerations of the labels of the buffer give the same
    emission and the same buffer. *)
Lemma validation_order_irrelevant
    (iter1 iter2 : list string -> list string)
    (h : hand_gesture.frame_history) (g : string) (c : Q) :
  (forall l x, In x (iter1 l) <-> In x l) ->
  (forall l x, In x (iter2 l) <-> In x l) ->
  (length h <= hand_gesture.max_frames)%nat ->
  hand_gesture.validate_with iter1 g c h = hand_gesture.validate_with iter2 g c h.
Proof.
  intros H1 H2 Hlen.
  destruct (@validate_with_cases iter1 H1 h g c) as [E1|[m E1]];
    destruct (@validate_with_cases iter2 H2 h g c) as [E2|[m' E2]].
  - congruence.
  - apply (@validate_with_emits iter2 H2 h g m' c Hlen) in E2.
    apply (@validate_with_emits iter1 H1 h g m' c Hlen) in E2. congruence.
  - apply (@validate_with_emits iter1 H1 h g m c Hlen) in E1.
    apply (@validate_with_emits iter2 H2 h g m c Hlen) in E1. congruence.
  - pose proof E1 as E.
    apply (@validate_with_emits iter1 H1 h g m c Hlen) in E.
    apply (@validate_with_emits iter2 H2 h g m c Hlen) in E. congruence.
Qed.

Lemma set_spec (l : list string) (x : string) : In x (Py.set l) <-> In x l.
Proof. apply nodup_In. Qed.

(** ** The window of the program: [validate] and [run_window] *)

Section WindowRun.

Import hand_gesture.

Lemma validate_cases (h : frame_history) (g : string) (c : Q) :
  validate g c h = (Py.Ok None, tracked h g c)
  \/ exists m, validate g c h = (Py.Ok (Some m), []).
Proof. apply (@validate_with_cases Py.set set_spec). Qed.

(** Without a label of count 10 in the tracked buffer, nothing is
    emitted. *)
Lemma validate_no_majority (h : frame_history) (g : string) (c : Q) :
  (forall l, (Py.count l (map fst (tracked h g c)) < 10)%nat) ->
  validate g c h = (Py.Ok None, tracked h g c).
Proof.
  intro H. destruct (validate_cases h g c) as [E|[m E]]; [exact E|].
  apply (@validate_with_emitted Py.set set_spec) in E.
  destruct E as (_ & _ & _ & Hc & _). specialize (H m). lia.
Qed.

Lemma run_window_cons_none
    (stream : list (string * Q)) (h h' : frame_history) (g : string) (c : Q) :
  validate g c h = (Py.Ok None, h') ->
  run_window ((g, c) :: stream) h
  = (Py.Ok None :: fst (run_window stream h'), snd (run_window stream h')).
Proof.
  intro E. cbn [run_window]. rewrite E.
  now destruct (run_window stream h').
Qed.

Lemma run_window_cons_some
    (stream : list (string * Q)) (h h' : frame_history) (g m : string) (c : Q) :
  validate g c h = (Py.Ok (Some m), h') ->
  run_window ((g, c) :: stream) h
  = (Py.Ok (Some m) :: fst (run_window stream h'), snd (run_window stream h')).
Proof.
  intro E. cbn [run_window]. rewrite E.
  now destruct (run_window stream h').
Qed.

Lemma run_window_app (s1 s2 : list (string * Q)) (h : frame_history) :
  run_window (s1 ++ s2) h
  = (fst (run_window s1 h) ++ fst (run_window s2 (snd (run_window s1 h))),
     snd (run_window s2 (snd (run_window s1 h))))%list.
Proof.
  revert h. induction s1 as [|[g c] s1 IH]; intro h.
  - cbn. now destruct (run_window s2 h).
  - cbn [app].
    destruct (validate_cases h g c) as [E|[m E]].
    + rewrite !(@run_window_cons_none _ _ _ _ _ E), IH. reflexivity.
    + rewrite !(@run_window_cons_some _ _ _ _ _ _ E), IH. reflexivity.
Qed.

(** The buffer never holds the label ["unknown"], and no frame emits
    it. *)
Lemma run_window_no_unknown (stream : list (string * Q)) (h : frame_history) :
  ~ In "unknown" (map fst h) ->
  ~ In (Py.Ok (Some "unknown")) (fst (run_window stream h))
  /\ ~ In "unknown" (map fst (snd (run_window stream h))).
Proof.
  revert h. induction stream as [|[g c] stream IH]; intros h Hh.
  - cbn. tauto.
  - pose proof (@tracked_no_unknown h g c Hh) as Ht.
    destruct (validate_cases h g c) as [E|[m E]].
    + rewrite (@run_window_cons_none _ _ _ _ _ E). cbn [fst snd].
      destruct (IH _ Ht) as [IH1 IH2]. split; [|exact IH2].
      intros [Hin|Hin]; [discriminate|contradiction].
    + rewrite (@run_window_cons_some _ _ _ _ _ _ E). cbn [fst snd].
      destruct (IH [] (fun x => x)) as [IH1 IH2]. split; [|exact IH2].
      intros [Hin|Hin]; [|contradiction].
      injection Hin as ->.
      apply (@validate_with_emitted Py.set set_spec) in E.
      destruct E as (_ & _ & [Hm _] & _). contradiction.
Qed.

(** A stream in which no label occurs 10 times, counting what the buffer
    already holds, emits nothing. *)
Lemma run_window_minority (stream : list (string * Q)) (h : frame_history) :
  (forall l, (Py.count l (map fst h) + Py.count l (map fst stream) < 10)%nat) ->
  fst (run_window stream h) = repeat (Py.Ok None) (length stream).
Proof.
  revert h. induction stream as [|[g c] stream IH]; intros h H.
  - reflexivity.
  - assert (Ht : forall l, (Py.count l (map fst (tracked h g c))
                            + Py.count l (map fst stream) < 10)%nat).
    { intro l. specialize (H l). pose proof (tracked_count h g l c) as Hc.
      change (map fst ((g, c) :: stream)) with ([g] ++ map fst stream)%list in H.
      rewrite count_app in H. lia. }
    rewrite (@run_window_cons_none stream h (tracked h g c) g c).
    + cbn [fst length repeat]. now rewrite IH.
    + apply validate_no_majority. intro l. specialize (Ht l). lia.
Qed.

End WindowRun.

(** ** A sustained gesture *)

Section Sustained.

Import hand_gesture.

Variable X : string.
Variable c : Q.
Hypothesis X_known : X <> "unknown".

Lemma tracked_repeat (k : nat) :
  (k < max_frames)%nat ->
  tracked (repeat (X, c) k) X c = repeat (X, c) (S k).
Proof.
  intro Hk. rewrite tracked_eq. cbv zeta.
  apply String.eqb_neq in X_known. rewrite X_known. cbn [negb].
  rewrite <- repeat_cons.
  destruct (Nat.ltb_spec max_frames (length ((X, c) :: repeat (X, c) k)))
    as [H|H]; [|reflexivity].
  cbn [length] in H. rewrite repeat_length in H. lia.
Qed.

Lemma step_accumulate (k : nat) :
  (k < 9)%nat ->
  validate X c (repeat (X, c) k) = (Py.Ok None, repeat (X, c) (S k)).
Proof.
  intro Hk.
  assert (Ht : tracked (repeat (X, c) k) X c = repeat (X, c) (S k))
    by (apply tracked_repeat; unfold max_frames; lia).
  destruct (validate_cases (repeat (X, c) k) X c) as [E|[m E]].
  - now rewrite E, Ht.
  - apply (@validate_with_emitted Py.set set_spec) in E.
    destruct E as (_ & Hlen & _). rewrite Ht, repeat_length in Hlen. lia.
Qed.

Lemma step_fire :
  0.7 < c ->
  validate X c (repeat (X, c) 9) = (Py.Ok (Some X), []).
Proof.
  intro Hc.
  assert (Ht : tracked (repeat (X, c) 9) X c = repeat (X, c) 10)
    by (apply tracked_repeat; unfold max_frames; lia).
  apply (@validate_with_emits Py.set set_spec);
    [rewrite repeat_length; unfold max_frames; lia|].
  rewrite Ht. rewrite !map_repeat. cbn [fst snd].
  split; [rewrite repeat_length; lia|].
  split; [|split].
  - split; [now left|]. intro g. rewrite count_repeat.
    pose proof (count_le_length g (repeat X 10)) as H.
    now rewrite repeat_length in H.
  - rewrite count_repeat. lia.
  - unfold Py.sum, Py.len. cbn [repeat fold_left length].
    change (inject_Z (Z.of_nat 10)) with (10 # 1).
    apply Qlt_shift_div_l; lra.
Qed.

Lemma run_accumulate (n k : nat) :
  (k + n <= 9)%nat ->
  run_window (repeat (X, c) n) (repeat (X, c) k)
  = (repeat (Py.Ok None) n, repeat (X, c) (k + n)).
Proof.
  revert k. induction n as [|n IH]; intros k Hk.
  - cbn. now rewrite Nat.add_0_r.
  - cbn [repeat].
    assert (Hk9 : (k < 9)%nat) by lia.
    rewrite (@run_window_cons_none _ _ _ _ _ (@step_accumulate k Hk9)).
    rewrite (IH (S k)) by lia. cbn [fst snd].
    now rewrite Nat.add_succ_r.
Qed.

Lemma run_accumulate_empty (n : nat) :
  (n <= 9)%nat ->
  run_window (repeat (X, c) n) [] = (repeat (Py.Ok None) n, repeat (X, c) n).
Proof. intro Hn. apply (@run_accumulate n 0). lia. Qed.

(** Ten identical results above the threshold emit once, on the tenth,
    and leave the buffer empty; the next results start a new count. *)
Lemma run_sustained (n : nat) :
  0.7 < c -> (n <= 9)%nat ->
  run_window (repeat (X, c) (10 + n)) []
  = (repeat (Py.Ok None) 9 ++ Py.Ok (Some X) :: repeat (Py.Ok None) n,
     repeat (X, c) n)%list.
Proof.
  intros Hc Hn.
  replace (10 + n)%nat with (9 + S n)%nat by lia.
  rewrite repeat_app, run_window_app.
  rewrite (@run_accumulate_empty 9) by lia. cbn [fst snd].
  change (repeat (X, c) (S n)) with ((X, c) :: repeat (X, c) n).
  rewrite (@run_window_cons_some _ _ _ _ _ _ (@step_fire Hc)).
  rewrite (@run_accumulate_empty n) by lia.
  reflexivity.
Qed.

End Sustained.

(** The buffer of a run that starts within the window size stays within
    it, so the hypothesis of the emission condition holds at every frame. *)
Lemma run_window_length (stream : list (string * Q)) (h : hand_gesture.frame_history) :
  (length h <= hand_gesture.max_frames)%nat ->
  (length (snd (hand_gesture.run_window stream h)) <= hand_gesture.max_frames)%nat.
Proof.
  revert h. induction stream as [|[g c] stream IH]; intros h Hh.
  - exact Hh.
  - destruct (validate_cases h g c) as [E|[m E]].
    + rewrite (@run_window_cons_none _ _ _ _ _ E). cbn [snd].
      apply IH. now apply tracked_length.
    + rewrite (@run_window_cons_some _ _ _ _ _ _ E). cbn [snd].
      apply IH. cbn. lia.
Qed.

(** ** The whole body for one hand *)

(** On readable landmarks the body of the frame loop raises nothing. *)
Lemma process_hand_total
    (lm : list Landmark) (handedness : string) (st : hand_gesture.loop_state) :
  Forall readable lm ->
  exists v st', hand_gesture.process_hand lm handedness st = (Py.Ok v, st').
Proof.
  intro Hall. unfold hand_gesture.process_hand.
  destruct (classify_total handedness Hall) as (g & c & ->).
  destruct (smooth_gesture_total (hand_gesture.gesture_classifier st) g c
              GestureClassifier.history_weight_default)
    as ([g' c'] & gc & ->).
  destruct (validate_cases (hand_gesture.gesture_frame_history st) g' c')
    as [->|[m ->]]; eauto.
Qed.

(** ** The cases of the test file *)

Example mock_closed_palm :
  GestureClassifier.classify mock_closed "Right" = Py.Ok ("closed_palm", 0.90).
Proof. reflexivity. Qed.

Example mock_victory :
  GestureClassifier.classify
    (test_gestures.create_mock_landmarks [false; true; true; false; false] false None)
    "Right"
  = Py.Ok ("victory", 0.88).
Proof. reflexivity. Qed.

Example mock_rock :
  GestureClassifier.classify
    (test_gestures.create_mock_landmarks [false; true; false; false; true] false None)
    "Right"
  = Py.Ok ("rock", 0.88).
Proof. reflexivity. Qed.

Example mock_thumbs_up :
  GestureClassifier.classify
    (test_gestures.create_mock_landmarks [true; false; false; false; false] false None)
    "Right"
  = Py.Ok ("thumbs_up", 0.85).
Proof. reflexivity. Qed.

Example victory_stream :
  hand_gesture.run_window (repeat ("victory", 0.9) 10) []
  = (repeat (Py.Ok None) 9 ++ [Py.Ok (Some "victory")], [])%list
  /\ command_mapper.is_critical_command "victory" = false
  /\ command_mapper.is_critical_command "open_palm" = true.
Proof. repeat split. Qed.

(** ** Claims about the validation window *)



(** C5.  A run of the window from the empty buffer never emits the label
    ["unknown"], and its buffer never holds it.  A frame after which no
    label has 10 occurrences in the buffer emits nothing, whatever the
    confidences; so a stream in which no label occurs 10 times emits
    nothing at all. *)
Theorem window_never_emits_unknown_or_minority :
  (forall stream,
     ~ In (Py.Ok (Some "unknown")) (fst (hand_gesture.run_window stream []))
     /\ ~ In "unknown" (map fst (snd (hand_gesture.run_window stream []))))
  /\ (forall h g c,
        (forall l, (Py.count l (map fst (tracked h g c)) < 10)%nat) ->
        hand_gesture.validate g c h = (Py.Ok None, tracked h g c))
  /\ (forall stream,
        (forall l, (Py.count l (map fst stream) < 10)%nat) ->
        fst (hand_gesture.run_window stream [])
        = repeat (Py.Ok None) (length stream)).
Proof.
  split; [|split].
  - intro stream. apply run_window_no_unknown. intros [].
  - apply validate_no_majority.
  - intros stream H. apply run_window_minority. intro l. exact (H l).
Qed.

Lemma window_never_emits_unknown_or_minority_witness :
  hand_gesture.validate "rock" 0.99 (repeat ("victory", 0.99) 9)
  = (Py.Ok None, (repeat ("victory", 0.99) 9 ++ [("rock", 0.99)])%list)
  /\ fst (hand_gesture.run_window split_stream []) = repeat (Py.Ok None) 12.
Proof.
  destruct window_never_emits_unknown_or_minority as (_ & Hstep & Hrun).
  split.
  - apply (Hstep (repeat ("victory", 0.99) 9) "rock" 0.99).
    intro l. unfold Py.count. cbn.
    destruct (String.eqb_spec l "victory") as [->|_]; [cbn; lia|].
    destruct (String.eqb_spec l "rock") as [->|_]; cbn; lia.
  - apply (Hrun split_stream).
    intro l. unfold Py.count. cbn.
    destruct (String.eqb_spec l "victory") as [->|_]; [cbn; lia|].
    destruct (String.eqb_spec l "rock") as [->|_]; cbn; lia.
Defined.

(* ================================================================== *)
(** * Further properties of the classifier                            *)
(* ================================================================== *)





(** X1.  The victory and rock rules do not look at the thumb: with the
    index and middle fingers extended and the ring and pinky closed,
    [classify] returns [("victory", 0.88)]; with the index and pinky
    extended and the middle and ring closed, [("rock", 0.88)]; the thumb
    may be extended or closed. *)
Theorem victory_and_rock_ignore_thumb
    (lm : list Landmark) (handedness : string) (thumb : bool) :
  length lm = 21%nat ->
  (finger_states lm = Py.Ok (thumb, true, true, false, false) ->
   GestureClassifier.classify lm handedness = Py.Ok ("victory", 0.88))
  /\ (finger_states lm = Py.Ok (thumb, true, false, false, true) ->
      GestureClassifier.classify lm handedness = Py.Ok ("rock", 0.88)).
Proof.
  intro Hlen. split; intro Hfs;
    rewrite (classify_cascade lm handedness Hlen Hfs);
    destruct thumb; reflexivity.
Qed.

Lemma victory_and_rock_ignore_thumb_witness :
  GestureClassifier.classify
    (test_gestures.create_mock_landmarks [true; true; true; false; false] false None)
    "Left" = Py.Ok ("victory", 0.88)
  /\ GestureClassifier.classify
       (test_gestures.create_mock_landmarks [false; true; false; false; true] false None)
       "Left" = Py.Ok ("rock", 0.88).
Proof.
  split.
  - apply (victory_and_rock_ignore_thumb
             (test_gestures.create_mock_landmarks
                [true; true; true; false; false] false None) "Left" true);
      reflexivity.
  - apply (victory_and_rock_ignore_thumb
             (test_gestures.create_mock_landmarks
                [false; true; false; false; true] false None) "Left" false);
      reflexivity.
Defined.





(** X4.  Whenever [_finger_spread] returns, its value lies between 0
    and 1. *)
Theorem finger_spread_range (lm : list Landmark) (s : Q) :
  GestureClassifier._finger_spread lm = Py.Ok s -> 0 <= s <= 1.
Proof.
  unfold GestureClassifier._finger_spread.
  destruct (Py.mapM _ [4; 8; 12; 16; 20]%nat) as [tips|]; [|discriminate].
  destruct (Py.mapM coord_x lm) as [all_x|]; [|discriminate].
  cbn [Py.bind].
  destruct (Py.max tips) as [mx|] eqn:Emx; [|discriminate].
  destruct (Py.min tips) as [mn|] eqn:Emn; [|discriminate].
  destruct (Py.max all_x) as [ax|] eqn:Eax; [|discriminate].
  destruct (Py.min all_x) as [an|] eqn:Ean; [|discriminate].
  cbn [Py.bind].
  assert (Htips : mn <= mx).
  { destruct (@max_min_ok tips) as (mx' & mn' & H1 & H2 & Hle);
      [intros ->; discriminate|]. congruence. }
  assert (Hall : an <= ax).
  { destruct (@max_min_ok all_x) as (mx' & mn' & H1 & H2 & Hle);
      [intros ->; discriminate|]. congruence. }
  unfold Py.truediv. destruct (Qeq_bool (ax - an + 0.000001) 0); [discriminate|].
  cbn [Py.bind Py.ret]. intros [= <-].
  assert (Hq : 0 <= (mx - mn) / (ax - an + 0.000001))
    by (apply Qle_shift_div_l; lra).
  unfold Py.min2.
  destruct (Py.lt 1.0 ((mx - mn) / (ax - an + 0.000001))) eqn:E.
  - split; lra.
  - apply lt_false_iff in E. split; [exact Hq | lra].
Qed.

Lemma finger_spread_range_witness :
  0 <= 4000000000 # 4000010000 <= 1.
Proof.
  apply (@finger_spread_range mock_open_spread). reflexivity.
Defined.

Lemma classify_raise (lm : list Landmark) (handedness : string) (e : Py.exn) :
  length lm = 21%nat ->
  finger_states lm = Py.Raise e ->
  GestureClassifier.classify lm handedness = Py.Raise e.
Proof.
  intros Hlen Hfs. unfold GestureClassifier.classify. rewrite Hlen.
  cbn [Nat.eqb negb]. unfold finger_states in Hfs.
  repeat match goal with
         | |- context [GestureClassifier.extended_at lm ?a ?b] =>
             destruct (GestureClassifier.extended_at lm a b);
             cbn [Py.bind] in *; [|congruence]
         end.
  discriminate Hfs.
Qed.

(** Closes a leaf of the rule cascade whose confidence is a constant. *)
Ltac range_leaf :=
  intros [= <- <-]; split; [split; lra | intro Hne; first [lra | congruence]].

Lemma classify_from_victory_range
    (lm : list Landmark) (handedness : string) (i m r p : bool) (g : string) (c : Q) :
  GestureClassifier.classify_from_victory lm handedness i m r p = Py.Ok (g, c) ->
  0 <= c <= 0.95 /\ (g <> "unknown" -> 0.775 < c).
Proof.
  unfold GestureClassifier.classify_from_victory.
  destruct i, m, r, p; cbn [andb negb Py.ret]; try range_leaf.
  destruct (GestureClassifier._get_point_direction lm handedness) as [d|];
    [|discriminate].
  cbn [Py.bind Py.ret]. range_leaf.
Qed.

Lemma classify_confidence_bounds
    (lm : list Landmark) (handedness g : string) (c : Q) :
  GestureClassifier.classify lm handedness = Py.Ok (g, c) ->
  0 <= c <= 0.95 /\ (g <> "unknown" -> 0.775 < c).
Proof.
  destruct (Nat.eq_dec (length lm) 21) as [Hlen|Hlen].
  - destruct (finger_states lm) as [[[[[t i] m] r] p]|e] eqn:Hfs.
    + rewrite (classify_cascade lm handedness Hlen Hfs).
      destruct t, i, m, r, p; cbn [andb negb orb Py.ret];
        try range_leaf; try apply classify_from_victory_range.
      * destruct (GestureClassifier._finger_spread lm) as [s|]; [|discriminate].
        cbn [Py.bind]. destruct (Py.gt s 0.3) eqn:Es.
        -- apply gt_true_iff in Es. unfold Py.min2, Py.ret.
           destruct (Py.lt (0.7 + s * 0.25) 0.95) eqn:E;
             [apply lt_true_iff in E|]; range_leaf.
        -- apply classify_from_victory_range.
      * destruct (GestureClassifier._get_thumb_direction lm handedness) as [d|];
          [|discriminate].
        cbn [Py.bind Py.ret]. range_leaf.
    + rewrite (@classify_raise lm handedness e Hlen Hfs). discriminate.
  - rewrite (classify_wrong_length_aux lm handedness Hlen). range_leaf.
Qed.



(** X6.  On landmarks whose coordinates can all be read, [classify]
    raises no exception, whatever their number, and the label it returns
    is one of the thirteen gesture labels. *)
Theorem classify_returns_a_gesture_label
    (lm : list Landmark) (handedness : string) :
  Forall readable lm ->
  exists g c,
    GestureClassifier.classify lm handedness = Py.Ok (g, c)
    /\ In g GESTURE_LABELS.
Proof.
  intro Hall. destruct (@classify_total lm handedness Hall) as (g & c & H).
  exists g, c. split; [exact H|]. exact (@classify_labels lm handedness g c H).
Qed.

Lemma classify_returns_a_gesture_label_witness :
  exists g c,
    GestureClassifier.classify (far_hand true true) "Left" = Py.Ok (g, c)
    /\ In g GESTURE_LABELS.
Proof.
  apply (@classify_returns_a_gesture_label (far_hand true true) "Left").
  repeat constructor; eexists; reflexivity.
Defined.

(** ** Translation of the whole observation *)














(* ================================================================== *)
(** * Further properties of the smoother                              *)
(* ================================================================== *)

Lemma slice_last_app {A} (k : nat) (l r : list A) :
  Py.slice_last (k + length r) (l ++ r) = (Py.slice_last k l ++ r)%list.
Proof.
  unfold Py.slice_last. rewrite length_app, skipn_app.
  replace (length l + length r - (k + length r))%nat with (length l - k)%nat by lia.
  replace (length l - k - length l)%nat with 0%nat by lia.
  reflexivity.
Qed.

Lemma slice_last_length {A} (k : nat) (l : list A) :
  length (Py.slice_last k l) = Nat.min k (length l).
Proof. unfold Py.slice_last. rewrite length_skipn. lia. Qed.

Lemma slice_last_all {A} (k : nat) (l : list A) :
  (length l <= k)%nat -> Py.slice_last k l = l.
Proof.
  intro H. unfold Py.slice_last.
  replace (length l - k)%nat with 0%nat by lia. reflexivity.
Qed.

Lemma slice_last_tl {A} (k : nat) (l : list A) :
  (k < length l)%nat -> Py.slice_last k (tl l) = Py.slice_last k l.
Proof.
  intro H. unfold Py.slice_last. destruct l as [|a l]; [reflexivity|].
  cbn [tl length] in *.
  replace (S (length l) - k)%nat with (S (length l - k)) by lia.
  reflexivity.
Qed.

(** Keeping the last [k] entries after each append is keeping the last
    [k] entries of everything appended. *)
Lemma slice_last_absorb {A} (k : nat) (l r : list A) :
  Py.slice_last k (Py.slice_last k l ++ r) = Py.slice_last k (l ++ r).
Proof.
  unfold Py.slice_last at 1 3. rewrite !length_app, slice_last_length.
  unfold Py.slice_last. rewrite (skipn_app (length l + length r - k)).
  rewrite skipn_app, length_skipn, skipn_skipn.
  f_equal.
  - f_equal. lia.
  - f_equal. lia.
Qed.

(** The history after one call, when it was within the history size. *)
Lemma history_step (hs : nat) (h : list (string * Q)) (e : string * Q) :
  (length h <= hs)%nat ->
  (if (hs <? length (h ++ [e]))%nat then tl (h ++ [e]) else (h ++ [e])%list)
  = Py.slice_last hs (h ++ [e]).
Proof.
  intro H. destruct (Nat.ltb_spec hs (length (h ++ [e]))) as [Hlt|Hge].
  - rewrite length_app in Hlt. cbn in Hlt.
    unfold Py.slice_last. rewrite length_app. cbn [length].
    replace (length h + 1 - hs)%nat with 1%nat by lia.
    destruct (h ++ [e])%list; reflexivity.
  - now rewrite slice_last_all.
Qed.

Lemma smooth_run_cons
    (inputs : list (string * Q)) (self self' : GestureClassifier.t)
    (g : string) (c : Q) (r : string * Q) :
  GestureClassifier.smooth_gesture g c GestureClassifier.history_weight_default self
  = (Py.Ok r, self') ->
  smooth_run ((g, c) :: inputs) self
  = (Py.Ok r :: fst (smooth_run inputs self'), snd (smooth_run inputs self')).
Proof.
  intro E. cbn [smooth_run]. rewrite E. now destruct (smooth_run inputs self').
Qed.

(** X8.  The smoothing history is a FIFO of the last five inputs.  On a
    classifier with history size 5 whose history holds at most five
    entries, any sequence of calls of [smooth_gesture] raises nothing,
    answers every call, and leaves as history the last five entries of
    the old history followed by the inputs. *)
Theorem smooth_history_keeps_last_five
    (inputs : list (string * Q)) (self : GestureClassifier.t) :
  GestureClassifier.history_size self = 5%nat ->
  (length (GestureClassifier.gesture_history self) <= 5)%nat ->
  length (fst (smooth_run inputs self)) = length inputs
  /\ Forall (fun r => exists p, r = Py.Ok p) (fst (smooth_run inputs self))
  /\ snd (smooth_run inputs self)
     = GestureClassifier.mk
         (Py.slice_last 5 (GestureClassifier.gesture_history self ++ inputs)) 5.
Proof.
  revert self. induction inputs as [|[g c] inputs IH]; intros self Hs Hlen.
  - cbn [smooth_run fst snd length]. rewrite app_nil_r, slice_last_all by exact Hlen.
    destruct self as [h hs]. cbn in *. subst hs. repeat split. constructor.
  - destruct (smooth_gesture_total self g c GestureClassifier.history_weight_default)
      as (r & self' & E).
    pose proof E as E'. rewrite smooth_gesture_eq in E'.
    rewrite Hs, (@history_step 5 _ (g, c) Hlen) in E'.
    injection E' as _ <-.
    rewrite (@smooth_run_cons inputs self _ g c r E). cbn [fst snd length].
    destruct (IH (GestureClassifier.mk
                    (Py.slice_last 5 (GestureClassifier.gesture_history self
                                      ++ [(g, c)])) 5))
      as (IH1 & IH2 & IH3).
    + reflexivity.
    + cbn. rewrite slice_last_length. lia.
    + cbn [GestureClassifier.gesture_history] in IH3.
      rewrite slice_last_absorb, <- app_assoc in IH3.
      repeat split.
      * now rewrite IH1.
      * constructor; [now exists r | exact IH2].
      * exact IH3.
Qed.

Lemma smooth_history_keeps_last_five_witness :
  snd (smooth_run (repeat ("rock", 0.88) 7) GestureClassifier.init)
  = GestureClassifier.mk (repeat ("rock", 0.88) 5) 5.
Proof.
  apply (@smooth_history_keeps_last_five (repeat ("rock", 0.88) 7)
           GestureClassifier.init);
    [reflexivity | cbn; lia].
Defined.

Lemma Forall_skipn_keep {A} (P : A -> Prop) (n : nat) (l : list A) :
  Forall P l -> Forall P (skipn n l).
Proof.
  revert l. induction n as [|n IH]; intros l H; [exact H|].
  destruct H as [|a l Ha Hl]; [constructor | now apply IH].
Qed.

Lemma Forall_tl_keep {A} (P : A -> Prop) (l : list A) :
  Forall P l -> Forall P (tl l).
Proof. intro H. destruct H; [constructor | assumption]. Qed.

Lemma len_cons {A} (a : A) (l : list A) : Py.len (a :: l) == 1 + Py.len l.
Proof.
  unfold Py.len. cbn [length]. rewrite Znat.Nat2Z.inj_succ. unfold Z.succ.
  rewrite inject_Z_plus. ring.
Qed.

Lemma len_nonneg {A} (l : list A) : 0 <= Py.len l.
Proof. unfold Py.len, Qle. cbn. lia. Qed.

Lemma sum_unit (l : list Q) :
  Forall unit_interval l -> 0 <= Py.sum l <= Py.len l.
Proof.
  intro H. rewrite sum_fold_right. induction H as [|x l [Hx0 Hx1] _ [IH0 IH1]].
  - cbn. split; apply Qle_refl.
  - cbn [fold_right]. rewrite len_cons. split; lra.
Qed.

Lemma mean_unit (l : list Q) :
  l <> [] -> Forall unit_interval l -> unit_interval (Py.sum l / Py.len l).
Proof.
  intros Hne H. destruct (sum_unit H) as [H0 H1].
  assert (Hpos : 0 < Py.len l).
  { destruct l as [|x l]; [congruence|]. rewrite len_cons.
    pose proof (len_nonneg l). lra. }
  split.
  - apply Qle_shift_div_l; [exact Hpos | lra].
  - apply Qle_shift_div_r; [exact Hpos | lra].
Qed.

(** X9.  Smoothing keeps confidences between 0 and 1: when the input
    confidence and every confidence in the history are in that range, the
    call raises nothing, the confidence it returns is in that range, and
    so is every confidence of the new history. *)
Theorem smooth_confidence_stays_in_unit_interval
    (self : GestureClassifier.t) (g : string) (c w : Q) :
  unit_interval c ->
  Forall unit_interval (map snd (GestureClassifier.gesture_history self)) ->
  exists g' c' self',
    GestureClassifier.smooth_gesture g c w self = (Py.Ok (g', c'), self')
    /\ unit_interval c'
    /\ Forall unit_interval (map snd (GestureClassifier.gesture_history self')).
Proof.
  intros Hc Hh. rewrite smooth_gesture_eq.
  set (h0 := (GestureClassifier.gesture_history self ++ [(g, c)])%list).
  set (h := if (GestureClassifier.history_size self <? length h0)%nat
            then tl h0 else h0).
  assert (Hh0 : Forall unit_interval (map snd h0)).
  { subst h0. rewrite map_app. apply Forall_app. split; [exact Hh|].
    repeat constructor; apply Hc. }
  assert (Hh' : Forall unit_interval (map snd h)).
  { subst h. destruct (_ <? _)%nat; [|exact Hh0].
    destruct h0; [constructor|]. exact (Forall_tl_keep Hh0). }
  assert (Hrecent : Forall unit_interval (map snd (Py.slice_last 3 h))).
  { unfold Py.slice_last. rewrite <- skipn_map. now apply Forall_skipn_keep. }
  destruct ((0 <? length h)%nat
            && (2 <=? Py.count g (map fst (Py.slice_last 3 h)))%nat) eqn:E.
  - apply andb_prop in E. destruct E as [_ E].
    rewrite (recent_mean_ok g h E).
    do 3 eexists. split; [reflexivity|]. split; [|exact Hh'].
    apply mean_unit; [|exact Hrecent].
    apply Nat.leb_le in E.
    pose proof (count_le_length g (map fst (Py.slice_last 3 h))) as Hle.
    destruct (Py.slice_last 3 h); [cbn in *; lia | discriminate].
  - destruct (negb (g =? "unknown")).
    + do 3 eexists. split; [reflexivity|]. split; [exact Hc | exact Hh'].
    + destruct (Nat.ltb_spec 1 (length h)) as [H2|H2].
      * destruct (@getitem_neg_2 _ h H2) as [[lg lc] [-> Hnth]].
        do 3 eexists. split; [reflexivity|]. split; [|exact Hh'].
        apply nth_error_In, in_rev in Hnth.
        rewrite Forall_forall in Hh'.
        destruct (Hh' lc) as [H0 H1];
          [apply in_map_iff; now exists (lg, lc)|].
        split; lra.
      * do 3 eexists. split; [reflexivity|]. split; [|exact Hh'].
        split; vm_compute; discriminate.
Qed.

Lemma smooth_confidence_stays_in_unit_interval_witness :
  exists g' c' self',
    GestureClassifier.smooth_gesture "victory" 0.88 0.7
      (GestureClassifier.mk [("victory", 0.88); ("unknown", 0.0)] 5)
    = (Py.Ok (g', c'), self')
    /\ unit_interval c'
    /\ Forall unit_interval (map snd (GestureClassifier.gesture_history self')).
Proof.
  apply (@smooth_confidence_stays_in_unit_interval
           (GestureClassifier.mk [("victory", 0.88); ("unknown", 0.0)] 5)
           "victory" 0.88 0.7).
  - split; vm_compute; discriminate.
  - repeat constructor; vm_compute; discriminate.
Defined.

Lemma slice_last_suffix {A} (l r : list A) :
  Py.slice_last (length r) (l ++ r) = r.
Proof.
  pose proof (@slice_last_app A 0 l r) as H. cbn [Nat.add] in H.
  rewrite H. unfold Py.slice_last.
  now rewrite Nat.sub_0_r, skipn_all.
Qed.

(** The last [length r] entries of the history after the append of
    [smooth_gesture], when the appended history ends with [r] and the
    history size is at least [length r]. *)
Lemma recent_after_append {A} (hs : nat) (l r : list A) :
  (length r <= hs)%nat ->
  Py.slice_last (length r)
    (if (hs <? length (l ++ r))%nat then tl (l ++ r) else (l ++ r)%list)
  = r.
Proof.
  intro H. destruct (Nat.ltb_spec hs (length (l ++ r))) as [Hlt|_].
  - rewrite slice_last_tl by lia. apply slice_last_suffix.
  - apply slice_last_suffix.
Qed.



Lemma getitem_neg_suffix {A} (pre r : list A) (k : nat) :
  (k <= length r)%nat ->
  Py.getitem_neg (pre ++ r) k = Py.getitem_neg r k.
Proof.
  intro H. unfold Py.getitem_neg, Py.getitem. rewrite length_app.
  destruct (Nat.leb_spec k (length pre + length r)) as [_|]; [|lia].
  destruct (Nat.leb_spec k (length r)) as [_|]; [|lia].
  rewrite nth_error_app2 by lia.
  replace (length pre + length r - k - length pre)%nat
    with (length r - k)%nat by lia.
  reflexivity.
Qed.

(** X11.  A single dropped frame is bridged: on a history (of size at
    least 3) whose last two entries are gestures other than ["unknown"],
    the input ["unknown"] returns the last gesture with half its
    confidence, not ["unknown"]. *)
Theorem smooth_bridges_single_dropout
    (self : GestureClassifier.t) (h : list (string * Q))
    (g1 g2 : string) (c1 c2 c w : Q) :
  (3 <= GestureClassifier.history_size self)%nat ->
  GestureClassifier.gesture_history self = (h ++ [(g1, c1); (g2, c2)])%list ->
  g1 <> "unknown" -> g2 <> "unknown" ->
  exists self',
    GestureClassifier.smooth_gesture "unknown" c w self
    = (Py.Ok (g2, c2 * 0.5), self').
Proof.
  intros Hs Hh Hg1 Hg2. rewrite smooth_gesture_eq, Hh, <- app_assoc.
  cbn [app].
  set (r := [(g1, c1); (g2, c2); ("unknown", c)]).
  pose proof (@recent_after_append _ (GestureClassifier.history_size self) h r Hs)
    as Hrecent.
  change (length r) with 3%nat in Hrecent.
  set (hcur := if (GestureClassifier.history_size self <? length (h ++ r))%nat
               then tl (h ++ r) else (h ++ r)%list) in *.
  assert (Hcur : hcur = (firstn (length hcur - 3) hcur ++ r)%list).
  { symmetry.
    etransitivity; [|apply (firstn_skipn (length hcur - 3) hcur)].
    f_equal. symmetry. exact Hrecent. }
  assert (Hlen : (3 <= length hcur)%nat).
  { pose proof (slice_last_length 3 hcur) as Hl. rewrite Hrecent in Hl.
    change (length r) with 3%nat in Hl. lia. }
  destruct (Nat.ltb_spec 0 (length hcur)) as [_|]; [|lia].
  destruct (Nat.ltb_spec 1 (length hcur)) as [_|]; [|lia].
  rewrite Hrecent.
  assert (Hcount : Py.count "unknown" (map fst r) = 1%nat).
  { subst r. unfold Py.count. cbn [map fst filter].
    destruct (String.eqb_spec "unknown" g1) as [E|_]; [congruence|].
    destruct (String.eqb_spec "unknown" g2) as [E|_]; [congruence|].
    reflexivity. }
  rewrite Hcount. cbn [Nat.leb andb].
  change (negb ("unknown" =? "unknown")) with false. cbn iota.
  assert (Hget : Py.getitem_neg hcur 2 = Py.Ok (g2, c2)).
  { rewrite Hcur. apply (@getitem_neg_suffix _ _ r 2). cbn. lia. }
  rewrite Hget. eauto.
Qed.

Lemma smooth_bridges_single_dropout_witness :
  exists self',
    GestureClassifier.smooth_gesture "unknown" 0.0 0.7
      (GestureClassifier.mk [("victory", 0.88); ("victory", 0.9)] 5)
    = (Py.Ok ("victory", 0.9 * 0.5), self').
Proof.
  apply (@smooth_bridges_single_dropout
           (GestureClassifier.mk [("victory", 0.88); ("victory", 0.9)] 5)
           [] "victory" "victory" 0.88 0.9 0.0 0.7);
    [cbn; lia | reflexivity | discriminate | discriminate].
Defined.

(* ================================================================== *)
(** * Further properties of the validation window                     *)
(* ================================================================== *)

(** X12.  The validation buffer never outgrows the window: a run that
    starts with at most 12 buffered entries ends with at most 12, whatever
    the stream. *)
Theorem window_buffer_stays_within_capacity
    (stream : list (string * Q)) (h : hand_gesture.frame_history) :
  (length h <= 12)%nat ->
  (length (snd (hand_gesture.run_window stream h)) <= 12)%nat.
Proof. apply run_window_length. Qed.

Lemma window_buffer_stays_within_capacity_witness :
  (length (snd (hand_gesture.run_window
                  (repeat ("rock", 0.5%Q) 30) (repeat ("victory", 0.5%Q) 12))) <= 12)%nat.
Proof.
  apply (@window_buffer_stays_within_capacity
           (repeat ("rock", 0.5) 30) (repeat ("victory", 0.5) 12)).
  cbn. lia.
Defined.

(** X13.  The result of a frame does not depend on the order in which
    Python iterates over [set(gesture_names)]: on a buffer within the
    window size, any enumeration of the labels of the buffer gives the
    emission and the buffer that the first-occurrence order gives. *)
Theorem window_ignores_set_order
    (iter : list string -> list string)
    (h : hand_gesture.frame_history) (g : string) (c : Q) :
  (forall l x, In x (iter l) <-> In x l) ->
  (length h <= 12)%nat ->
  hand_gesture.validate_with iter g c h = hand_gesture.validate g c h.
Proof.
  intros Hiter Hlen.
  exact (@validation_order_irrelevant iter Py.set h g c Hiter set_spec Hlen).
Qed.

Lemma window_ignores_set_order_witness :
  hand_gesture.validate_with (fun l => rev (Py.set l)) "rock" 0.9
    (repeat ("victory", 0.9) 5 ++ repeat ("rock", 0.9) 5)%list
  = hand_gesture.validate "rock" 0.9
      (repeat ("victory", 0.9) 5 ++ repeat ("rock", 0.9) 5)%list.
Proof.
  apply (@window_ignores_set_order (fun l => rev (Py.set l))).
  - intros l x. rewrite <- in_rev. apply set_spec.
  - cbn. lia.
Defined.

(** X14.  A sustained gesture validates once every ten frames: a stream
    of [10 * q + r] identical results [(X, c)], with [X] not ["unknown"],
    [c > 0.7] and [r < 10], emits [X] on each tenth frame and on no other,
    and ends with the [r] results of the count in progress in the
    buffer. *)
Theorem window_revalidates_every_ten_frames
    (X : string) (c : Q) (q r : nat) :
  X <> "unknown" -> 0.7 < c -> (r <= 9)%nat ->
  hand_gesture.run_window (repeat (X, c) (10 * q + r)) []
  = (concat (repeat (repeat (Py.Ok None) 9 ++ [Py.Ok (Some X)]) q)
       ++ repeat (Py.Ok None) r,
     repeat (X, c) r)%list.
Proof.
  intros HX Hc Hr. induction q as [|q IH].
  - cbn [Nat.mul Nat.add repeat concat app].
    apply (@run_accumulate_empty X c HX r Hr).
  - replace (10 * S q + r)%nat with (10 + (10 * q + r))%nat by lia.
    rewrite repeat_app, run_window_app.
    pose proof (@run_sustained X c HX 0 Hc ltac:(lia)) as H10.
    cbn [Nat.add] in H10. rewrite H10. cbn [fst snd repeat].
    rewrite IH. cbn [fst snd repeat concat]. now rewrite <- app_assoc.
Qed.

Lemma window_revalidates_every_ten_frames_witness :
  hand_gesture.run_window (repeat ("victory", 0.9) 23) []
  = (concat (repeat (repeat (Py.Ok None) 9 ++ [Py.Ok (Some "victory")]) 2)
       ++ repeat (Py.Ok None) 3,
     repeat ("victory", 0.9) 3)%list.
Proof.
  apply (@window_revalidates_every_ten_frames "victory" 0.9 2 3);
    [discriminate | reflexivity | lia].
Defined.


Lemma sum_gt_bound (l : list Q) (b : Q) :
  l <> [] -> Forall (fun x => b < x) l -> Py.len l * b < Py.sum l.
Proof.
  intros Hne H. rewrite sum_fold_right.
  induction H as [|x l Hx Hl IH]; [congruence|].
  cbn [fold_right]. rewrite len_cons.
  destruct l as [|y l].
  - unfold Py.len. cbn [length fold_right].
    change (inject_Z (Z.of_nat 0)) with 0. lra.
  - assert (Hy : Py.len (y :: l) * b < fold_right Qplus 0 (y :: l))
      by (apply IH; discriminate).
    lra.
Qed.

Lemma len_pos {A} (l : list A) : l <> [] -> 0 < Py.len l.
Proof.
  destruct l as [|a l]; [congruence|]. intros _. rewrite len_cons.
  pose proof (len_nonneg l). lra.
Qed.





(** The buffer between two frames is at rest: checked again as it is, it
    validates nothing. *)
Lemma run_window_at_rest (stream : list (string * Q)) (h : hand_gesture.frame_history) :
  (length h <= hand_gesture.max_frames)%nat ->
  hand_gesture.check_validated Py.set h = (Py.Ok None, h) ->
  let h_end := snd (hand_gesture.run_window stream h) in
  (length h_end <= hand_gesture.max_frames)%nat
  /\ hand_gesture.check_validated Py.set h_end = (Py.Ok None, h_end).
Proof.
  revert h. induction stream as [|[g c] stream IH]; intros h Hlen Hrest.
  - cbn. tauto.
  - destruct (validate_cases h g c) as [E|[m E]].
    + rewrite (@run_window_cons_none _ _ _ _ _ E). cbn [snd].
      apply IH; [now apply tracked_length|].
      unfold hand_gesture.validate in E.
      now rewrite validate_with_eq in E.
    + rewrite (@run_window_cons_some _ _ _ _ _ _ E). cbn [snd].
      apply IH; [cbn; lia | reflexivity].
Qed.

(** X16.  Only a frame that appends can validate: after any stream fed
    from the empty buffer, a frame whose smoothed gesture is ["unknown"]
    emits nothing and leaves the buffer as it is. *)
Theorem window_unknown_frame_never_validates
    (stream : list (string * Q)) (c : Q) :
  let h := snd (hand_gesture.run_window stream []) in
  hand_gesture.validate "unknown" c h = (Py.Ok None, h).
Proof.
  intro h.
  destruct (@run_window_at_rest stream []) as [Hlen Hrest];
    [cbn; lia | reflexivity |].
  fold h in Hlen, Hrest.
  unfold hand_gesture.validate. rewrite validate_with_eq.
  assert (Ht : tracked h "unknown" c = h).
  { rewrite tracked_eq. cbn [String.eqb Ascii.eqb Bool.eqb negb]. cbv zeta.
    destruct (Nat.ltb_spec hand_gesture.max_frames (length h)); [lia|reflexivity]. }
  now rewrite Ht.
Qed.

Lemma run_window_emitted_count
    (stream : list (string * Q)) (h : hand_gesture.frame_history) (m : string) :
  In (Py.Ok (Some m)) (fst (hand_gesture.run_window stream h)) ->
  (10 <= Py.count m (map fst h) + Py.count m (map fst stream))%nat.
Proof.
  revert h. induction stream as [|[g c] stream IH]; intros h Hin.
  - destruct Hin.
  - pose proof (tracked_count h g m c) as Hc.
    change (map fst ((g, c) :: stream)) with ([g] ++ map fst stream)%list.
    rewrite count_app.
    destruct (validate_cases h g c) as [E|[m' E]].
    + rewrite (@run_window_cons_none _ _ _ _ _ E) in Hin. cbn [fst] in Hin.
      destruct Hin as [Hin|Hin]; [discriminate|].
      specialize (IH _ Hin). lia.
    + rewrite (@run_window_cons_some _ _ _ _ _ _ E) in Hin. cbn [fst] in Hin.
      destruct Hin as [Hin|Hin].
      * injection Hin as ->.
        apply (@validate_with_emitted Py.set set_spec) in E.
        destruct E as (_ & _ & _ & Hm & _). lia.
      * specialize (IH _ Hin). cbn in IH. lia.
Qed.

(** X17.  A label is validated only if it was fed at least ten times: a
    label emitted by a run from the empty buffer occurs at least 10 times
    in the stream. *)
Theorem window_emitted_label_was_fed_ten_times
    (stream : list (string * Q)) (m : string) :
  In (Py.Ok (Some m)) (fst (hand_gesture.run_window stream [])) ->
  (10 <= Py.count m (map fst stream))%nat.
Proof.
  intro H. apply run_window_emitted_count in H. cbn in H. lia.
Qed.

Lemma window_emitted_label_was_fed_ten_times_witness :
  (10 <= Py.count "rock" (map fst (repeat ("rock", 0.9%Q) 11)))%nat.
Proof.
  apply (@window_emitted_label_was_fed_ten_times (repeat ("rock", 0.9) 11) "rock").
  vm_compute. tauto.
Defined.

Lemma tracked_append (h : hand_gesture.frame_history) (X : string) (c : Q) :
  X <> "unknown" -> (length h < hand_gesture.max_frames)%nat ->
  tracked h X c = (h ++ [(X, c)])%list.
Proof.
  intros HX Hlen. rewrite tracked_eq. cbv zeta.
  apply String.eqb_neq in HX. rewrite HX. cbn [negb].
  destruct (Nat.ltb_spec hand_gesture.max_frames (length (h ++ [(X, c)])))
    as [H|_]; [|reflexivity].
  rewrite length_app in H. cbn in H. lia.
Qed.

(** With fewer than nine entries in the buffer a frame only accumulates. *)
Lemma validate_accumulates (h : hand_gesture.frame_history) (X : string) (c : Q) :
  X <> "unknown" -> (length h < 9)%nat ->
  hand_gesture.validate X c h = (Py.Ok None, (h ++ [(X, c)])%list).
Proof.
  intros HX Hlen.
  assert (Ht : tracked h X c = (h ++ [(X, c)])%list)
    by (apply tracked_append; [exact HX | unfold hand_gesture.max_frames; lia]).
  destruct (validate_cases h X c) as [E|[m E]].
  - now rewrite E, Ht.
  - apply (@validate_with_emitted Py.set set_spec) in E.
    destruct E as (_ & Hl & _). rewrite Ht, length_app in Hl. cbn in Hl. lia.
Qed.

(** The tenth confident entry of one label validates it. *)
Lemma validate_fires (h : hand_gesture.frame_history) (X : string) (c : Q) :
  X <> "unknown" ->
  map fst h = repeat X 9 ->
  Forall (fun e => 0.7 < snd e) h -> 0.7 < c ->
  hand_gesture.validate X c h = (Py.Ok (Some X), []).
Proof.
  intros HX Hnames Hconf Hc.
  assert (Hlen : length h = 9%nat).
  { apply (f_equal (@length _)) in Hnames.
    now rewrite length_map, repeat_length in Hnames. }
  assert (Ht : tracked h X c = (h ++ [(X, c)])%list)
    by (apply tracked_append; [exact HX | unfold hand_gesture.max_frames; lia]).
  apply (@validate_with_emits Py.set set_spec);
    [unfold hand_gesture.max_frames; lia|].
  rewrite Ht. rewrite !map_app, Hnames. cbn [map fst snd].
  change (repeat X 9 ++ [X])%list with (repeat X 10).
  split; [rewrite length_app; cbn; lia|].
  split; [|split].
  - split; [now left|]. intro g. rewrite count_repeat.
    pose proof (count_le_length g (repeat X 10)) as H.
    now rewrite repeat_length in H.
  - rewrite count_repeat. lia.
  - assert (Hall : Forall (fun x => 0.7 < x) (map snd h ++ [c])).
    { apply Forall_app. split; [now apply Forall_map | now repeat constructor]. }
    assert (Hne : (map snd h ++ [c])%list <> []) by (destruct (map snd h); discriminate).
    pose proof (sum_gt_bound Hne Hall) as Hsum.
    pose proof (len_pos Hne) as Hpos.
    apply Qlt_shift_div_l; [exact Hpos | lra].
Qed.

(** X18.  Ten consecutive results of one gesture, each with a confidence
    above 0.7 (the confidences need not be equal), validate it on the
    tenth frame: nine frames emit nothing, the tenth emits the gesture and
    empties the buffer. *)
Theorem window_validates_ten_confident_frames
    (X : string) (stream : list (string * Q)) :
  X <> "unknown" ->
  map fst stream = repeat X 10 ->
  Forall (fun e => 0.7 < snd e) stream ->
  hand_gesture.run_window stream []
  = (repeat (Py.Ok None) 9 ++ [Py.Ok (Some X)], [])%list.
Proof.
  intros HX Hnames Hconf.
  do 10 (destruct stream as [|[? ?] stream]; [discriminate Hnames|]).
  destruct stream; [|discriminate Hnames].
  injection Hnames as -> -> -> -> -> -> -> -> -> ->.
  repeat match goal with
         | H : Forall _ (_ :: _) |- _ => inversion H; clear H; subst
         end.
  cbn [snd] in *.
  do 9 (erewrite run_window_cons_none
          by (apply validate_accumulates; [exact HX | cbn; lia]);
        cbn [fst snd app]).
  rewrite (@run_window_cons_some [] _ [] X X q8); [reflexivity|].
  apply validate_fires;
    [exact HX | reflexivity | repeat constructor; assumption | assumption].
Qed.

Lemma window_validates_ten_confident_frames_witness :
  hand_gesture.run_window
    [("rock", 0.71); ("rock", 0.95); ("rock", 0.8); ("rock", 0.88);
     ("rock", 0.9); ("rock", 0.75); ("rock", 0.99); ("rock", 0.72);
     ("rock", 0.85); ("rock", 0.8)] []
  = (repeat (Py.Ok None) 9 ++ [Py.Ok (Some "rock")], [])%list.
Proof.
  apply (@window_validates_ten_confident_frames "rock");
    [discriminate | reflexivity | repeat constructor].
Defined.

(* ================================================================== *)
(** * The loop over frames                                            *)
(* ================================================================== *)

Lemma getitem_neg_in {A} (l : list A) (k : nat) (a : A) :
  Py.getitem_neg l k = Py.Ok a -> In a l.
Proof.
  unfold Py.getitem_neg, Py.getitem. destruct (k <=? length l)%nat; [|discriminate].
  destruct (nth_error l (length l - k)) as [b|] eqn:E; [|discriminate].
  intros [= <-]. exact (nth_error_In _ _ E).
Qed.

(** The label [smooth_gesture] returns is its input or a label of the
    history, and the new history holds no other labels. *)
Lemma smooth_labels (self self' : GestureClassifier.t) (g g' : string) (c c' w : Q) :
  GestureClassifier.smooth_gesture g c w self = (Py.Ok (g', c'), self') ->
  (g' = g \/ In g' (map fst (GestureClassifier.gesture_history self)))
  /\ (forall x, In x (map fst (GestureClassifier.gesture_history self')) ->
                x = g \/ In x (map fst (GestureClassifier.gesture_history self))).
Proof.
  rewrite smooth_gesture_eq.
  set (h0 := (GestureClassifier.gesture_history self ++ [(g, c)])%list).
  set (h := if (GestureClassifier.history_size self <? length h0)%nat
            then tl h0 else h0).
  assert (Hsub : forall x, In x (map fst h) ->
                           x = g \/ In x (map fst (GestureClassifier.gesture_history self))).
  { intros x Hx.
    assert (Hx0 : In x (map fst h0)).
    { subst h. destruct (_ <? _)%nat; [|exact Hx].
      destruct h0; [exact Hx | now right]. }
    subst h0. rewrite map_app, in_app_iff in Hx0. cbn in Hx0.
    destruct Hx0 as [H|[H|[]]]; [now right | now left]. }
  intro E. apply pair_equal_spec in E. destruct E as [E <-].
  split; [|exact Hsub]. revert E.
  destruct ((0 <? length h)%nat
            && (2 <=? Py.count g (map fst (Py.slice_last 3 h)))%nat).
  - destruct (Py.truediv _ _); [|discriminate]. intros [= <- _]. now left.
  - destruct (String.eqb_spec g "unknown") as [->|_]; cbn [negb].
    + destruct (1 <? length h)%nat.
      * destruct (Py.getitem_neg h 2) as [[lg lc]|] eqn:Eg; [|discriminate].
        intros [= <- _]. apply getitem_neg_in in Eg.
        apply Hsub. apply in_map_iff. now exists (lg, lc).
      * intros [= <- _]. now left.
    + intros [= <- _]. now left.
Qed.

Lemma tracked_labels (h : hand_gesture.frame_history) (g x : string) (c : Q) :
  In x (map fst (tracked h g c)) -> x = g \/ In x (map fst h).
Proof.
  rewrite tracked_eq. cbv zeta.
  assert (Htl : forall h' : hand_gesture.frame_history,
             In x (map fst (if (hand_gesture.max_frames <? length h')%nat
                            then tl h' else h')) ->
             In x (map fst h')).
  { intros h' Hx. destruct (_ <? _)%nat; [|exact Hx].
    destruct h'; [exact Hx | now right]. }
  destruct (negb (g =? "unknown")); intro Hx; apply Htl in Hx; [|now right].
  rewrite map_app, in_app_iff in Hx. cbn in Hx.
  destruct Hx as [H|[H|[]]]; [now right | now left].
Qed.

Lemma run_hands_cons
    (frames : list (list Landmark * string)) (st st' : hand_gesture.loop_state)
    (lm : list Landmark) (hd : string) (r : Py.result (option string)) :
  hand_gesture.process_hand lm hd st = (r, st') ->
  hand_gesture_panel.run_hands ((lm, hd) :: frames) st
  = match r with
    | Py.Ok v => (Py.Ok v :: fst (hand_gesture_panel.run_hands frames st'),
                  snd (hand_gesture_panel.run_hands frames st'))
    | Py.Raise e => ([Py.Raise e], st')
    end.
Proof.
  intro E. cbn [hand_gesture_panel.run_hands]. rewrite E.
  destruct r; [|reflexivity].
  now destruct (hand_gesture_panel.run_hands frames st').
Qed.

(** One frame keeps the labels of the loop state in order, and a label it
    validates is a gesture label other than ["unknown"]. *)
Lemma process_hand_labels
    (lm : list Landmark) (hd : string) (st st' : hand_gesture.loop_state)
    (r : Py.result (option string)) :
  labels_ok st ->
  hand_gesture.process_hand lm hd st = (r, st') ->
  labels_ok st'
  /\ (forall m, r = Py.Ok (Some m) -> In m GESTURE_LABELS /\ m <> "unknown").
Proof.
  intros (Hhist & Hbuf & Hunk). unfold hand_gesture.process_hand.
  destruct (GestureClassifier.classify lm hd) as [[g c]|e] eqn:Ec.
  - pose proof (@classify_labels _ _ _ _ Ec) as Hg.
    destruct (smooth_gesture_total (hand_gesture.gesture_classifier st) g c
                GestureClassifier.history_weight_default)
      as ([g' c'] & gc & Es).
    rewrite Es. destruct (@smooth_labels _ _ _ _ _ _ _ Es) as [Hg' Hgc].
    assert (Hg'l : In g' GESTURE_LABELS).
    { destruct Hg' as [->|H]; [exact Hg | now apply Hhist]. }
    assert (Hgcl : forall x, In x (map fst (GestureClassifier.gesture_history gc)) ->
                             In x GESTURE_LABELS).
    { intros x Hx. destruct (Hgc x Hx) as [->|H]; [exact Hg | now apply Hhist]. }
    assert (Htl : forall x, In x (map fst (tracked (hand_gesture.gesture_frame_history st) g' c')) ->
                            In x GESTURE_LABELS).
    { intros x Hx. destruct (@tracked_labels _ _ _ _ Hx) as [->|H];
        [exact Hg'l | now apply Hbuf]. }
    pose proof (@tracked_no_unknown _ g' c' Hunk) as Htu.
    destruct (validate_cases (hand_gesture.gesture_frame_history st) g' c')
      as [E|[m E]]; rewrite E; intros [= <- <-].
    + split; [|discriminate]. repeat split; cbn; assumption.
    + apply (@validate_with_emitted Py.set set_spec) in E.
      destruct E as (_ & _ & [Hm _] & _).
      split.
      * repeat split; cbn; [assumption | intros x [] | intros []].
      * intros m' [= <-]. split; [now apply Htl|].
        intros ->. contradiction.
  - intros [= <- <-]. split; [|discriminate]. repeat split; assumption.
Qed.

Lemma known_label_has_command (g : string) :
  In g GESTURE_LABELS -> g <> "unknown" ->
  In g (Py.keys command_mapper.GESTURE_TO_COMMAND)
  /\ fst (command_mapper.get_gesture_command g) <> "".
Proof.
  intros H Hne. cbn in H.
  repeat (destruct H as [<-|H];
          [first [contradiction | split; [cbn; tauto | discriminate]]|]).
  destruct H.
Qed.

Lemma run_hands_labels
    (frames : list (list Landmark * string)) (st : hand_gesture.loop_state) (m : string) :
  labels_ok st ->
  In (Py.Ok (Some m)) (fst (hand_gesture_panel.run_hands frames st)) ->
  In m GESTURE_LABELS /\ m <> "unknown".
Proof.
  revert st. induction frames as [|[lm hd] frames IH]; intros st Hst Hin.
  - destruct Hin.
  - destruct (hand_gesture.process_hand lm hd st) as [r st'] eqn:E.
    destruct (@process_hand_labels _ _ _ _ _ Hst E) as [Hst' Hr].
    rewrite (@run_hands_cons frames _ _ _ _ _ E) in Hin.
    destruct r as [v|e].
    + cbn [fst] in Hin. destruct Hin as [Hin|Hin].
      * injection Hin as ->. now apply Hr.
      * exact (IH _ Hst' Hin).
    + cbn in Hin. destruct Hin as [Hin|[]]. discriminate.
Qed.

(** X19.  Every gesture the frame loop validates has a command: whatever
    the frames fed from the initial state, a validated label is never
    ["unknown"], it is a key of [GESTURE_TO_COMMAND], and
    [get_gesture_command] returns a non-empty text for it, never the
    fallback. *)
Theorem loop_validates_only_commands
    (frames : list (list Landmark * string)) (m : string) :
  In (Py.Ok (Some m))
     (fst (hand_gesture_panel.run_hands frames hand_gesture_panel.initial_state)) ->
  m <> "unknown"
  /\ In m (Py.keys command_mapper.GESTURE_TO_COMMAND)
  /\ fst (command_mapper.get_gesture_command m) <> "".
Proof.
  intro Hin.
  destruct (@run_hands_labels frames hand_gesture_panel.initial_state m)
    as [Hm Hne]; [|exact Hin|].
  - repeat split; cbn; tauto.
  - split; [exact Hne|]. now apply known_label_has_command.
Qed.

(** X20.  On frames whose landmarks can all be read, the body of the
    frame loop raises nothing: every frame, from any loop state, yields a
    result. *)
Theorem loop_never_raises_on_readable_frames
    (frames : list (list Landmark * string)) (st : hand_gesture.loop_state) :
  Forall (fun f => Forall readable (fst f)) frames ->
  length (fst (hand_gesture_panel.run_hands frames st)) = length frames
  /\ Forall (fun r => exists v, r = Py.Ok v)
            (fst (hand_gesture_panel.run_hands frames st)).
Proof.
  revert st. induction frames as [|[lm hd] frames IH]; intros st Hall.
  - cbn. split; [reflexivity | constructor].
  - inversion Hall as [|f fs Hlm Hrest]; subst. cbn [fst] in Hlm.
    destruct (@process_hand_total lm hd st Hlm) as (v & st' & E).
    rewrite (@run_hands_cons frames _ _ _ _ _ E). cbn [fst length].
    destruct (IH st' Hrest) as [IH1 IH2]. split.
    + now rewrite IH1.
    + constructor; [now exists v | exact IH2].
Qed.

Lemma loop_validates_only_commands_witness :
  "victory" <> "unknown"
  /\ In "victory" (Py.keys command_mapper.GESTURE_TO_COMMAND)
  /\ fst (command_mapper.get_gesture_command "victory") <> "".
Proof.
  apply (@loop_validates_only_commands
           (still_frames
              (test_gestures.create_mock_landmarks
                 [false; true; true; false; false] false None) 10)
           "victory").
  vm_compute. do 9 right. left. reflexivity.
Defined.

Lemma loop_never_raises_on_readable_frames_witness :
  Forall (fun r => exists v, r = Py.Ok v)
    (fst (hand_gesture_panel.run_hands
            [(mock_closed, "Right"); (far_hand true false, "Left")]
            hand_gesture_panel.initial_state)).
Proof.
  apply (@loop_never_raises_on_readable_frames
           [(mock_closed, "Right"); (far_hand true false, "Left")]
           hand_gesture_panel.initial_state).
  repeat constructor; eexists; reflexivity.
Defined.

(** ** A hand held still *)

Lemma slice_last_repeat {A} (a : A) (k n : nat) :
  Py.slice_last k (repeat a n) = repeat a (Nat.min k n).
Proof.
  destruct (Nat.le_ge_cases k n) as [H|H].
  - replace (Nat.min k n) with k by lia.
    replace n with ((n - k) + k)%nat at 1 by lia.
    rewrite repeat_app.
    pose proof (@slice_last_suffix A (repeat a (n - k)) (repeat a k)) as Hs.
    now rewrite repeat_length in Hs.
  - replace (Nat.min k n) with n by lia.
    apply slice_last_all. now rewrite repeat_length.
Qed.

Lemma sum_repeat (c : Q) (n : nat) :
  Py.sum (repeat c n) == Py.len (repeat c n) * c.
Proof.
  rewrite sum_fold_right. induction n as [|n IH].
  - unfold Py.len. cbn [repeat length fold_right].
    change (inject_Z (Z.of_nat 0)) with 0. ring.
  - cbn [repeat fold_right]. rewrite len_cons, IH. ring.
Qed.

(** One more frame of the same gesture, on a history that holds nothing
    else: the gesture comes back with its own confidence. *)
Lemma smooth_still (g : string) (c w : Q) (j : nat) :
  g <> "unknown" -> (j <= 5)%nat ->
  exists c',
    GestureClassifier.smooth_gesture g c w (GestureClassifier.mk (repeat (g, c) j) 5)
    = (Py.Ok (g, c'), GestureClassifier.mk (repeat (g, c) (Nat.min 5 (S j))) 5)
    /\ c' == c.
Proof.
  intros Hg Hj. rewrite smooth_gesture_eq.
  cbn [GestureClassifier.gesture_history GestureClassifier.history_size].
  rewrite (@history_step 5 (repeat (g, c) j) (g, c))
    by (rewrite repeat_length; exact Hj).
  rewrite <- repeat_cons.
  change ((g, c) :: repeat (g, c) j) with (repeat (g, c) (S j)).
  rewrite !slice_last_repeat, !map_repeat, count_repeat, repeat_length.
  cbn [fst snd].
  destruct (Nat.ltb_spec 0 (Nat.min 5 (S j))) as [_|]; [|lia]. cbn [andb].
  set (n3 := Nat.min 3 (Nat.min 5 (S j))).
  destruct (Nat.leb_spec 2 n3) as [H2|H2].
  - rewrite truediv_len by (rewrite repeat_length; lia).
    eexists. split; [reflexivity|].
    rewrite sum_repeat, Qmult_comm. apply Qdiv_mult_l.
    assert (Hpos : 0 < Py.len (repeat c n3)).
    { apply len_pos. destruct n3; [lia | discriminate]. }
    intro E. rewrite E in Hpos. discriminate Hpos.
  - apply String.eqb_neq in Hg. rewrite Hg. cbn [negb].
    exists c. split; reflexivity.
Qed.

Section StillHand.

Variable lm : list Landmark.
Variable hd g : string.
Variable c : Q.
Hypothesis classified : GestureClassifier.classify lm hd = Py.Ok (g, c).
Hypothesis real : g <> "unknown".

Lemma still_confident : 0.7 < c.
Proof.
  destruct (classify_confidence_bounds lm hd classified) as [_ H].
  specialize (H real). lra.
Qed.

Lemma still_step (k : nat) (st : hand_gesture.loop_state) :
  still_state g c k st -> (k < 9)%nat ->
  exists st',
    hand_gesture.process_hand lm hd st = (Py.Ok None, st')
    /\ still_state g c (S k) st'.
Proof.
  intros (Hgc & Hnames & Hconf) Hk.
  unfold hand_gesture.process_hand. rewrite classified, Hgc.
  destruct (@smooth_still g c GestureClassifier.history_weight_default
              (Nat.min 5 k) real ltac:(lia)) as (c' & -> & Hc').
  assert (Hlen : length (hand_gesture.gesture_frame_history st) = k).
  { apply (f_equal (@length _)) in Hnames.
    now rewrite length_map, repeat_length in Hnames. }
  rewrite (@validate_accumulates _ g c' real) by lia.
  eexists. split; [reflexivity|]. unfold still_state.
  cbn [hand_gesture.gesture_classifier hand_gesture.gesture_frame_history].
  split; [|split].
  - replace (Nat.min 5 (S (Nat.min 5 k))) with (Nat.min 5 (S k)) by lia.
    reflexivity.
  - rewrite map_app, Hnames. cbn [map fst]. now rewrite <- repeat_cons.
  - apply Forall_app. split; [exact Hconf|].
    repeat constructor. cbn [snd]. rewrite Hc'. exact still_confident.
Qed.

Lemma still_fire (st : hand_gesture.loop_state) :
  still_state g c 9 st ->
  exists st', hand_gesture.process_hand lm hd st = (Py.Ok (Some g), st').
Proof.
  intros (Hgc & Hnames & Hconf).
  unfold hand_gesture.process_hand. rewrite classified, Hgc.
  destruct (@smooth_still g c GestureClassifier.history_weight_default
              (Nat.min 5 9) real ltac:(lia)) as (c' & -> & Hc').
  rewrite (@validate_fires _ g c' real Hnames Hconf)
    by (rewrite Hc'; exact still_confident).
  eauto.
Qed.

Lemma still_run (n k : nat) (st : hand_gesture.loop_state) :
  still_state g c k st -> (k + n = 9)%nat ->
  fst (hand_gesture_panel.run_hands (repeat (lm, hd) (S n)) st)
  = (repeat (Py.Ok None) n ++ [Py.Ok (Some g)])%list.
Proof.
  revert k st. induction n as [|n IH]; intros k st Hst Hk.
  - replace k with 9%nat in Hst by lia.
    destruct (still_fire Hst) as [st' E].
    cbn [repeat]. rewrite (@run_hands_cons [] _ _ _ _ _ E). reflexivity.
  - destruct (still_step Hst ltac:(lia)) as (st' & E & Hst').
    change (repeat (lm, hd) (S (S n))) with ((lm, hd) :: repeat (lm, hd) (S n)).
    rewrite (@run_hands_cons _ _ _ _ _ _ E). cbn [fst repeat app].
    f_equal. apply (IH (S k) st' Hst'). lia.
Qed.

End StillHand.

(** X21.  Any recognised gesture held still is validated on the tenth
    frame: when [classify] reads the pose as a label other than
    ["unknown"], ten frames of that pose fed from the initial state give
    nine frames without a validation and then the validation of that
    label.  The classifier's confidences (above 0.775) and the smoother
    (which returns a repeated gesture with its own confidence) leave the
    0.7 threshold no way to block it. *)
Theorem held_gesture_validates_on_tenth_frame
    (lm : list Landmark) (hd g : string) (c : Q) :
  GestureClassifier.classify lm hd = Py.Ok (g, c) ->
  g <> "unknown" ->
  fst (hand_gesture_panel.run_hands (repeat (lm, hd) 10)
         hand_gesture_panel.initial_state)
  = (repeat (Py.Ok None) 9 ++ [Py.Ok (Some g)])%list.
Proof.
  intros Hc Hg.
  apply (@still_run lm hd g c Hc Hg 9 0); [|reflexivity].
  repeat split. constructor.
Qed.

Lemma held_gesture_validates_on_tenth_frame_witness :
  fst (hand_gesture_panel.run_hands (repeat (mock_open_spread, "Right") 10)
         hand_gesture_panel.initial_state)
  = (repeat (Py.Ok None) 9 ++ [Py.Ok (Some "open_palm")])%list.
Proof.
  apply (@held_gesture_validates_on_tenth_frame mock_open_spread "Right"
           "open_palm" (3800007000000 # 4000010000000));
    [reflexivity | discriminate].
Defined.

(* ================================================================== *)
(** * Further properties of the command mapper and the panel          *)
(* ================================================================== *)

Lemma dict_get_in {V} (d : Py.dict V) (k : string) (v default : V) :
  NoDup (Py.keys d) -> In (k, v) d -> Py.dict_get d k default = v.
Proof.
  unfold Py.dict_get, Py.keys.
  induction d as [|[k0 v0] d IH]; intros Hnd Hin; [destruct Hin|].
  cbn [map fst] in Hnd. inversion Hnd as [|x l Hnotin Hnd']; subst.
  cbn [find fst]. destruct Hin as [[= -> ->]|Hin].
  - now rewrite String.eqb_refl.
  - destruct (String.eqb_spec k0 k) as [->|_].
    + exfalso. apply Hnotin. apply in_map_iff. now exists (k, v).
    + now apply IH.
Qed.

Lemma gesture_keys_nodup : NoDup (Py.keys command_mapper.GESTURE_TO_COMMAND).
Proof. cbn. repeat constructor; cbn; intuition discriminate. Qed.

Lemma shape_keys_nodup : NoDup (Py.keys command_mapper.SHAPE_TO_COMMAND).
Proof. cbn. repeat constructor; cbn; intuition discriminate. Qed.

Lemma existsb_eqb_in (x : string) (l : list string) :
  existsb (String.eqb x) l = true <-> In x l.
Proof.
  rewrite existsb_exists. split.
  - intros (y & Hy & E). apply String.eqb_eq in E. now subst.
  - intro H. exists x. split; [exact H | apply String.eqb_refl].
Qed.

(** X22.  Each table answers with its own entries: no key is written
    twice in either literal, so for every entry [(k, v)] of a table the
    getter of that table returns [v] for [k]. *)
Theorem command_tables_return_their_entries (k : string) (v : command_mapper.command) :
  (In (k, v) command_mapper.GESTURE_TO_COMMAND ->
   command_mapper.get_gesture_command k = v)
  /\ (In (k, v) command_mapper.SHAPE_TO_COMMAND ->
      command_mapper.get_shape_command k = v).
Proof.
  split; intro H.
  - exact (@dict_get_in _ _ k v command_mapper.neutral gesture_keys_nodup H).
  - exact (@dict_get_in _ _ k v command_mapper.neutral shape_keys_nodup H).
Qed.

Lemma command_tables_return_their_entries_witness :
  command_mapper.get_gesture_command "rock" = ("BACKFLIP!", (255, 0, 255))%Z
  /\ command_mapper.get_shape_command "line" = ("LINE MOVEMENT", (200, 200, 0))%Z.
Proof.
  split.
  - apply (command_tables_return_their_entries "rock" ("BACKFLIP!", (255, 0, 255))%Z).
    cbn. tauto.
  - apply (command_tables_return_their_entries "line" ("LINE MOVEMENT", (200, 200, 0))%Z).
    cbn. tauto.
Defined.

(** X23.  The critical gestures are exactly the two whose commands are
    STOP IMMEDIATELY and LAND: [is_critical_command g] holds if and only
    if [g] is ["open_palm"] or ["closed_palm"], and if and only if the
    command text of [g] is one of those two. *)
Theorem critical_commands_are_stop_and_land (g : string) :
  (command_mapper.is_critical_command g = true
   <-> g = "open_palm" \/ g = "closed_palm")
  /\ (command_mapper.is_critical_command g = true
      <-> fst (command_mapper.get_gesture_command g) = "STOP IMMEDIATELY"
          \/ fst (command_mapper.get_gesture_command g) = "LAND").
Proof.
  assert (H1 : command_mapper.is_critical_command g = true
               <-> g = "open_palm" \/ g = "closed_palm").
  { unfold command_mapper.is_critical_command. rewrite existsb_eqb_in.
    cbn. intuition congruence. }
  split; [exact H1|]. rewrite H1.
  destruct (in_dec string_dec g (Py.keys command_mapper.GESTURE_TO_COMMAND))
    as [Hin|Hout].
  - cbn in Hin.
    repeat (destruct Hin as [<-|Hin];
            [cbn; split; intros [H|H]; first [discriminate H | tauto]|]).
    destruct Hin.
  - unfold command_mapper.get_gesture_command.
    rewrite (@dict_get_outside _ _ g command_mapper.neutral Hout).
    cbn [fst command_mapper.neutral].
    split; [|intros [H|H]; discriminate H].
    intros [->| ->]; exfalso; apply Hout; cbn; tauto.
Qed.

(** X24.  The display text tells whether a key is mapped: the text a
    getter returns is empty exactly for the keys outside its table.  The
    two tables share no key, so a gesture label gets the fallback from
    [get_shape_command] and a shape label gets it from
    [get_gesture_command]. *)
Theorem command_text_empty_iff_unmapped (k : string) :
  (fst (command_mapper.get_gesture_command k) = ""
   <-> ~ In k (Py.keys command_mapper.GESTURE_TO_COMMAND))
  /\ (fst (command_mapper.get_shape_command k) = ""
      <-> ~ In k (Py.keys command_mapper.SHAPE_TO_COMMAND))
  /\ (In k (Py.keys command_mapper.GESTURE_TO_COMMAND) ->
      command_mapper.get_shape_command k = command_mapper.neutral)
  /\ (In k (Py.keys command_mapper.SHAPE_TO_COMMAND) ->
      command_mapper.get_gesture_command k = command_mapper.neutral).
Proof.
  split; [|split; [|split]].
  - split.
    + intros E Hin. cbn in Hin.
      repeat (destruct Hin as [<-|Hin]; [discriminate E|]). destruct Hin.
    + intro Hout. unfold command_mapper.get_gesture_command.
      now rewrite (@dict_get_outside _ _ k command_mapper.neutral Hout).
  - split.
    + intros E Hin. cbn in Hin.
      repeat (destruct Hin as [<-|Hin]; [discriminate E|]). destruct Hin.
    + intro Hout. unfold command_mapper.get_shape_command.
      now rewrite (@dict_get_outside _ _ k command_mapper.neutral Hout).
  - intro Hin. cbn in Hin.
    repeat (destruct Hin as [<-|Hin]; [reflexivity|]). destruct Hin.
  - intro Hin. cbn in Hin.
    repeat (destruct Hin as [<-|Hin]; [reflexivity|]). destruct Hin.
Qed.

Lemma command_text_empty_iff_unmapped_witness :
  command_mapper.get_shape_command "victory" = command_mapper.neutral
  /\ command_mapper.get_gesture_command "circle" = command_mapper.neutral.
Proof.
  split.
  - apply (command_text_empty_iff_unmapped "victory"). cbn. tauto.
  - apply (command_text_empty_iff_unmapped "circle"). cbn. tauto.
Defined.

(** X25.  The panel shows a command for exactly the eight pointing,
    victory, rock and palm gestures.  For any of them it shows
    ["COMMAND: "] followed by the command text; for any other value of
    [last_gesture] it shows nothing, and in particular the four thumb
    gestures, which do have a command in the table, never reach the
    panel.  After the display duration nothing is shown. *)
Theorem panel_shows_eight_gestures_only (g : string) :
  ((exists t, hand_gesture_panel.panel_text true g = Some t)
   <-> In g hand_gesture_panel.PANEL_GESTURES)
  /\ (In g hand_gesture_panel.PANEL_GESTURES ->
      hand_gesture_panel.panel_text true g
      = Some ("COMMAND: " ++ fst (command_mapper.get_gesture_command g)))
  /\ (In g ["thumbs_up"; "thumbs_down"; "thumbs_left"; "thumbs_right"] ->
      fst (command_mapper.get_gesture_command g) <> ""
      /\ hand_gesture_panel.panel_text true g = None)
  /\ hand_gesture_panel.panel_text false g = None.
Proof.
  assert (Hin : In g hand_gesture_panel.PANEL_GESTURES ->
                hand_gesture_panel.panel_text true g
                = Some ("COMMAND: " ++ fst (command_mapper.get_gesture_command g))).
  { intro H. cbn in H.
    repeat (destruct H as [<-|H]; [reflexivity|]). destruct H. }
  split; [|split; [exact Hin|split; [|reflexivity]]].
  - split.
    + intros [t Ht].
      unfold hand_gesture_panel.panel_text, hand_gesture_panel.panel_command in Ht.
      destruct (existsb (String.eqb g) hand_gesture_panel.PANEL_GESTURES) eqn:E.
      * now apply existsb_eqb_in.
      * discriminate Ht.
    + intro H. eexists. now apply Hin.
  - intro H. cbn in H.
    repeat (destruct H as [<-|H]; [split; [discriminate | reflexivity]|]).
    destruct H.
Qed.

Lemma panel_shows_eight_gestures_only_witness :
  hand_gesture_panel.panel_text true "rock" = Some "COMMAND: BACKFLIP!"
  /\ hand_gesture_panel.panel_text true "thumbs_up" = None.
Proof.
  split.
  - destruct (panel_shows_eight_gestures_only "rock") as (_ & Hshown & _).
    apply Hshown. cbn. tauto.
  - destruct (panel_shows_eight_gestures_only "thumbs_up") as (_ & _ & Hthumb & _).
    apply Hthumb. cbn. tauto.
Defined.

(* ================================================================== *)
(** * Properties of the test helpers                                  *)
(* ================================================================== *)

(** X26.  The mock hand says what it was asked to say: for any five finger
    states, with or without spread and for any direction,
    [create_mock_landmarks] returns 21 readable landmarks whose extension
    flags, as [classify] computes them, are the five given states. *)
Theorem mock_landmarks_round_trip
    (t i m r p spread : bool) (direction : option (Q * Q)) :
  let lm := test_gestures.create_mock_landmarks [t; i; m; r; p] spread direction in
  length lm = 21%nat
  /\ Forall readable lm
  /\ finger_states lm = Py.Ok (t, i, m, r, p).
Proof.
  destruct direction as [[dx dy]|];
    destruct t, i, m, r, p, spread;
    (split; [reflexivity|]);
    (split; [repeat constructor; eexists; reflexivity | reflexivity]).
Qed.



Lemma mapM_Forall {A B} (f : A -> Py.result B) (P : B -> Prop) (l : list A) :
  (forall a, In a l -> exists b, f a = Py.Ok b /\ P b) ->
  exists bs, Py.mapM f l = Py.Ok bs /\ length bs = length l /\ Forall P bs.
Proof.
  induction l as [|a l IH]; intro H.
  - exists []. repeat split. constructor.
  - destruct (H a (or_introl eq_refl)) as (b & Hb & HP).
    destruct IH as (bs & Hbs & Hlen & Hall);
      [intros x Hx; apply H; now right|].
    exists (b :: bs). cbn [Py.mapM]. rewrite Hb, Hbs.
    repeat split; [cbn; now rewrite Hlen | now constructor].
Qed.

(** A side of the trail: [side_len] points, at the parameters
    [0, 1/side_len, ...], all below 1. *)
Lemma side_ok (side_len : nat) (f : Q -> Q * Q) (P : Q * Q -> Prop) :
  (forall t, 0 <= t -> t < 1 -> P (f t)) ->
  exists pts,
    test_trails.side side_len f = Py.Ok pts
    /\ length pts = side_len /\ Forall P pts.
Proof.
  intro HP. unfold test_trails.side.
  destruct (@mapM_Forall nat (Q * Q)
              (fun i : nat =>
                 Py.bind (Py.truediv (inject_Z (Z.of_nat i))
                                     (inject_Z (Z.of_nat side_len)))
                         (fun t => Py.ret (f t)))
              P (seq 0 side_len)) as (pts & Hpts & Hlen & Hall).
  - intros i Hi. apply in_seq in Hi. cbn in Hi.
    assert (Hn : 0 < inject_Z (Z.of_nat side_len)).
    { change 0 with (inject_Z 0). rewrite <- Zlt_Qlt. lia. }
    assert (Hi0 : 0 <= inject_Z (Z.of_nat i)).
    { change 0 with (inject_Z 0). rewrite <- Zle_Qle. lia. }
    assert (Hlt : inject_Z (Z.of_nat i) < inject_Z (Z.of_nat side_len)).
    { rewrite <- Zlt_Qlt. lia. }
    unfold Py.truediv.
    destruct (Qeq_bool (inject_Z (Z.of_nat side_len)) 0) eqn:E.
    + apply Qeq_bool_iff in E. rewrite E in Hn. discriminate Hn.
    + cbn [Py.bind Py.ret]. eexists. split; [reflexivity|]. apply HP.
      * apply Qle_shift_div_l; [exact Hn | lra].
      * apply Qlt_shift_div_r; [exact Hn | lra].
  - exists pts. rewrite length_seq in Hlen. tauto.
Qed.

(** X28.  [generate_square_trail] raises nothing, not even for fewer than
    four points, where the sides are empty and no division is made.  It
    returns [4 * (num_points // 4)] points, each on the border of the
    square with corners [(0.3, 0.3)] and [(0.5, 0.5)]. *)
Theorem square_trail_stays_on_the_square (num_points : nat) :
  exists pts,
    test_trails.generate_square_trail num_points = Py.Ok pts
    /\ length pts = (4 * (num_points / 4))%nat
    /\ Forall on_square pts.
Proof.
  unfold test_trails.generate_square_trail.
  destruct (@side_ok (num_points / 4) (fun t => (0.3 + 0.2 * t, 0.3)) on_square)
    as (s1 & -> & L1 & F1);
    [intros t H0 H1; cbn; repeat split; try lra; right; right; left; reflexivity|].
  destruct (@side_ok (num_points / 4) (fun t => (0.5, 0.3 + 0.2 * t)) on_square)
    as (s2 & -> & L2 & F2);
    [intros t H0 H1; cbn; repeat split; try lra; right; left; reflexivity|].
  destruct (@side_ok (num_points / 4) (fun t => (0.5 - 0.2 * t, 0.5)) on_square)
    as (s3 & -> & L3 & F3);
    [intros t H0 H1; cbn; repeat split; try lra; right; right; right; reflexivity|].
  destruct (@side_ok (num_points / 4) (fun t => (0.3, 0.5 - 0.2 * t)) on_square)
    as (s4 & -> & L4 & F4);
    [intros t H0 H1; cbn; repeat split; try lra; left; reflexivity|].
  cbn [Py.bind Py.ret]. eexists. split; [reflexivity|]. split.
  - rewrite !length_app. lia.
  - repeat (apply Forall_app; split); assumption.
Qed.

(* ================================================================== *)
(** * Unreadable landmarks                                            *)
(* ================================================================== *)

Lemma short_row_unreadable (c : list Q) :
  (length c < 2)%nat -> coord_y (LmRow c) = Py.Raise Py.IndexError.
Proof.
  intro H. destruct c as [|x [|y c]]; [reflexivity | reflexivity |].
  cbn in H. lia.
Qed.

(** X29.  [classify] does not guard the shape of a landmark: with 21
    landmarks, if the row of the thumb tip holds fewer than two
    coordinates, or the row of the thumb IP joint does while the thumb
    tip is readable, [classify] raises [IndexError]. *)
Theorem classify_raises_on_short_row
    (lm : list Landmark) (handedness : string) (c : list Q) :
  length lm = 21%nat ->
  (length c < 2)%nat ->
  (Py.getitem lm GestureClassifier.THUMB_TIP = Py.Ok (LmRow c)
   \/ (Py.getitem lm GestureClassifier.THUMB_IP = Py.Ok (LmRow c)
       /\ exists y, Py.bind (Py.getitem lm GestureClassifier.THUMB_TIP) coord_y
                    = Py.Ok y)) ->
  GestureClassifier.classify lm handedness = Py.Raise Py.IndexError.
Proof.
  intros Hlen Hc H. unfold GestureClassifier.classify. rewrite Hlen.
  cbn [Nat.eqb negb]. unfold GestureClassifier.extended_at at 1.
  destruct H as [Htip | [Hip [y Hy]]].
  - rewrite Htip. cbn [Py.bind].
    destruct (@getitem_in_range _ lm GestureClassifier.THUMB_IP) as [b ->];
      [rewrite Hlen; unfold GestureClassifier.THUMB_IP; lia|].
    cbn [Py.bind]. unfold GestureClassifier._is_extended.
    now rewrite (@short_row_unreadable c Hc).
  - rewrite Hip.
    destruct (Py.getitem lm GestureClassifier.THUMB_TIP) as [a|]; [|discriminate].
    cbn [Py.bind] in *. unfold GestureClassifier._is_extended.
    rewrite Hy. cbn [Py.bind]. now rewrite (@short_row_unreadable c Hc).
Qed.

Lemma classify_raises_on_short_row_witness :
  GestureClassifier.classify (mock_with_short_row 4) "Right"
  = Py.Raise Py.IndexError
  /\ GestureClassifier.classify (mock_with_short_row 3) "Right"
     = Py.Raise Py.IndexError.
Proof.
  split.
  - apply (@classify_raises_on_short_row (mock_with_short_row 4) "Right" [0.5]);
      [reflexivity | cbn; lia | left; reflexivity].
  - apply (@classify_raises_on_short_row (mock_with_short_row 3) "Right" [0.5]);
      [reflexivity | cbn; lia | right; split; [reflexivity | eexists; reflexivity]].
Defined.
